(** * Outline extraction from styled text runs (round1a/main.py)

    A shallow embedding of [PDFOutlineExtractor]: the title resolver
    [extract_title], the heading classifier [is_heading] and the outline
    assembler [extract_outline], together with the parts of Python's [str]
    and [re] that they call.

    Modelling conventions.
    - A Python [str] is a [string]; every character is a code point below
      256 and the character classes are the ones Python gives to those code
      points.
    - A Python [float] is a binary64 [float]; a Python [int] is a [Z], except
      for lengths and counts, which are [nat].  Where a statement is about
      the number a [float] stands for, that number is a rational [Q].
    - A Python [set] of hashable values is a [gset]; a match object is the
      finite map of its groups.
    - An exception is a value [Raise e] of the [result] type; the calls into
      the PyMuPDF document are the only operations that raise. *)

From Stdlib Require Import ZArith PrimFloat Uint63 Ascii String.
From Stdlib Require QArith SpecFloat FloatOps FloatAxioms.
From stdpp Require Import base option list gmap strings sorting.

Set Warnings "-inexact-float".

Local Open Scope Z_scope.
Local Open Scope string_scope.
Local Open Scope list_scope.

(* ================================================================== *)
(** ** Python strings *)
(* ================================================================== *)

Module PyStr.

Definition ord (c : ascii) : N := N_of_ascii c.

Definition between (lo hi : N) (c : ascii) : bool :=
  ((lo <=? ord c) && (ord c <=? hi))%N.

Definition is_code (n : N) (c : ascii) : bool := (ord c =? n)%N.

(** [str.isspace] on one character; also what [str.strip] and
    [str.split] take for white space. *)
Definition isspace (c : ascii) : bool :=
  between 9 13 c || between 28 32 c || is_code 133 c || is_code 160 c.

(** Decimal digits (Unicode category Nd). *)
Definition isdecimal (c : ascii) : bool := between 48 57 c.

Definition isupper_char (c : ascii) : bool :=
  between 65 90 c || between 192 214 c || between 216 222 c.

Definition islower_char (c : ascii) : bool :=
  between 97 122 c || is_code 170 c || is_code 181 c || is_code 186 c
  || between 223 246 c || between 248 255 c.

(** Alphanumeric characters and the underscore. *)
Definition isword (c : ascii) : bool :=
  between 48 57 c || between 65 90 c || is_code 95 c || between 97 122 c
  || is_code 170 c || between 178 179 c || is_code 181 c
  || between 185 186 c || between 188 190 c || between 192 214 c
  || between 216 246 c || between 248 255 c.

Definition lower_char (c : ascii) : ascii :=
  if isupper_char c then ascii_of_N (ord c + 32) else c.

Definition chars (s : string) : list ascii := list_ascii_of_string s.
Definition of_chars (l : list ascii) : string := string_of_list_ascii l.

Definition len (s : string) : nat := length (chars s).

Fixpoint lstrip_chars (l : list ascii) : list ascii :=
  match l with
  | c :: l' => if isspace c then lstrip_chars l' else l
  | [] => []
  end.

Definition rstrip_chars (l : list ascii) : list ascii :=
  rev (lstrip_chars (rev l)).

Definition strip_chars (l : list ascii) : list ascii :=
  rstrip_chars (lstrip_chars l).

(** [s.strip()] *)
Definition strip (s : string) : string := of_chars (strip_chars (chars s)).

(** [s.lower()] *)
Definition lower (s : string) : string := of_chars (map lower_char (chars s)).

(** [s.isupper()]: no lower-case character and at least one upper-case
    one. *)
Fixpoint isupper_from (cased : bool) (l : list ascii) : bool :=
  match l with
  | [] => cased
  | c :: l' =>
      if islower_char c then false
      else isupper_from (cased || isupper_char c) l'
  end.

Definition isupper (s : string) : bool := isupper_from false (chars s).

(** [s.istitle()]: upper-case characters only after uncased ones,
    lower-case characters only after cased ones, and at least one cased
    character. *)
Fixpoint istitle_from (cased previous_is_cased : bool) (l : list ascii) : bool :=
  match l with
  | [] => cased
  | c :: l' =>
      if isupper_char c then
        if previous_is_cased then false else istitle_from true true l'
      else if islower_char c then
        if previous_is_cased then istitle_from true true l' else false
      else istitle_from cased false l'
  end.

Definition istitle (s : string) : bool := istitle_from false false (chars s).

(** [s.split()]: the maximal runs of characters that are not white
    space.  [cur] is the run being read, reversed. *)
Fixpoint split_from (cur : list ascii) (l : list ascii) : list string :=
  match l with
  | [] => match cur with [] => [] | _ => [of_chars (rev cur)] end
  | c :: l' =>
      if isspace c then
        match cur with
        | [] => split_from [] l'
        | _ => of_chars (rev cur) :: split_from [] l'
        end
      else split_from (c :: cur) l'
  end.

Definition split (s : string) : list string := split_from [] (chars s).

(** [s.split(sep)] for a separator of one character: never empty. *)
Fixpoint split_on_from (sep : ascii) (cur : list ascii) (l : list ascii)
  : list string :=
  match l with
  | [] => [of_chars (rev cur)]
  | c :: l' =>
      if Ascii.eqb c sep then of_chars (rev cur) :: split_on_from sep [] l'
      else split_on_from sep (c :: cur) l'
  end.

Definition split_on (sep : ascii) (s : string) : list string :=
  split_on_from sep [] (chars s).

(** [s.startswith(p)] *)
Definition startswith (s p : string) : bool := String.prefix p s.

(** [s.count(c)] and [c in s] for a character [c]. *)
Definition count (c : ascii) (l : list ascii) : nat :=
  length (filter (λ x, x = c) l).

Definition contains (c : ascii) (l : list ascii) : bool :=
  bool_decide (c ∈ l).

End PyStr.

(* ================================================================== *)
(** ** Python regular expressions: a backtracking matcher *)
(* ================================================================== *)

Module Re.

Inductive cls : Type :=
| CDigit                       (* \d *)
| CWord                        (* \w *)
| CSpace                       (* \s *)
| CRange (lo hi : ascii)       (* a-z *)
| CLit (c : ascii).

Inductive regex : Type :=
| Eps                          (* the empty pattern *)
| Bol                          (* ^ *)
| Eol                          (* $ *)
| Lit (c : ascii)
| Dot                          (* . *)
| OneOf (items : list cls)     (* [...] and the escapes \d \w \s *)
| Seq (r1 r2 : regex)
| Star (r : regex)             (* r*, greedy *)
| Plus (r : regex)             (* r+, greedy *)
| Group (i : nat) (r : regex). (* the i-th capturing group *)

Infix "⨾" := Seq (at level 60, right associativity).

(** A literal word such as [http]. *)
Fixpoint Word (l : list ascii) (r : regex) : regex :=
  match l with
  | [] => r
  | c :: l' => Lit c ⨾ Word l' r
  end.

Definition cls_mem (c : ascii) (k : cls) : bool :=
  match k with
  | CDigit => PyStr.isdecimal c
  | CWord => PyStr.isword c
  | CSpace => PyStr.isspace c
  | CRange lo hi => PyStr.between (PyStr.ord lo) (PyStr.ord hi) c
  | CLit c' => Ascii.eqb c c'
  end.

Definition in_set (items : list cls) (c : ascii) : bool :=
  existsb (cls_mem c) items.

(** The groups of a match object. *)
Abbreviation groups := (gmap nat (list ascii)).

(** What remains to be matched after a subexpression: the rest of the input
    and the groups closed so far. *)
Definition cont : Type := list ascii → groups → option groups.

(** Greedy repetition: one more round of [step] is tried first, and the
    continuation only when that fails.  Every round must consume input, so
    the length of the input bounds the number of rounds. *)
Fixpoint star_loop (step : list ascii → groups → cont → option groups)
    (fuel : nat) (s : list ascii) (g : groups) (k : cont) : option groups :=
  match fuel with
  | O => k s g
  | S fuel' =>
      match step s g (λ s' g',
               if (length s' <? length s)%nat
               then star_loop step fuel' s' g' k else None) with
      | Some m => Some m
      | None => k s g
      end
  end.

(** [run r n s g k]: match [r] at the front of [s], the input being [n]
    characters long in all, then go on with [k]. *)
Fixpoint run (r : regex) (n : nat) (s : list ascii) (g : groups) (k : cont)
  : option groups :=
  match r with
  | Eps => k s g
  | Bol => if (length s =? n)%nat then k s g else None
  | Eol =>
      match s with
      | [] => k s g
      | [c] => if Ascii.eqb c "010" then k s g else None
      | _ => None
      end
  | Lit c =>
      match s with
      | c' :: s' => if Ascii.eqb c' c then k s' g else None
      | [] => None
      end
  | Dot =>
      match s with
      | c' :: s' => if Ascii.eqb c' "010" then None else k s' g
      | [] => None
      end
  | OneOf items =>
      match s with
      | c' :: s' => if in_set items c' then k s' g else None
      | [] => None
      end
  | Seq r1 r2 => run r1 n s g (λ s' g', run r2 n s' g' k)
  | Star r' => star_loop (run r' n) (length s) s g k
  | Plus r' =>
      run r' n s g (λ s' g', star_loop (run r' n) (length s') s' g' k)
  | Group i r' =>
      run r' n s g (λ s' g',
        k s' (<[i := take (length s - length s') s]> g'))
  end.

(** One round of a repetition of a character class: what [run] does on
    [OneOf items]. *)
Definition class_step (items : list cls) : list ascii → groups → cont → option groups :=
  λ s g k,
    match s with
    | c' :: s' => if in_set items c' then k s' g else None
    | [] => None
    end.

(** A step looks at its continuation only on inputs that are not longer
    than its own. *)
Definition local_step (step : list ascii → groups → cont → option groups) : Prop :=
  ∀ s g k1 k2,
    (∀ s' g', (length s' ≤ length s)%nat → k1 s' g' = k2 s' g') →
    step s g k1 = step s g k2.

(** A result of a step is a result of its continuation. *)
Definition answering_step (step : list ascii → groups → cont → option groups) : Prop :=
  ∀ s g, step s g (λ _ _, None) = None.

(** [derives n r s g s' g']: read without search, [r] takes a front part of
    [s], leaves [s'] and turns the groups [g] into [g']. *)
Inductive derives (n : nat) : regex → list ascii → groups → list ascii → groups → Prop :=
| derives_eps s g : derives n Eps s g s g
| derives_bol s g : length s = n → derives n Bol s g s g
| derives_eol s g : s = [] ∨ s = ["010"%char] → derives n Eol s g s g
| derives_lit c s g : derives n (Lit c) (c :: s) g s g
| derives_dot c s g : c ≠ "010"%char → derives n Dot (c :: s) g s g
| derives_one_of items c s g :
    in_set items c = true → derives n (OneOf items) (c :: s) g s g
| derives_seq r1 r2 s g s1 g1 s2 g2 :
    derives n r1 s g s1 g1 → derives n r2 s1 g1 s2 g2 →
    derives n (Seq r1 r2) s g s2 g2
| derives_star_stop r s g : derives n (Star r) s g s g
| derives_star_more r s g s1 g1 s2 g2 :
    derives n r s g s1 g1 → (length s1 < length s)%nat →
    derives n (Star r) s1 g1 s2 g2 →
    derives n (Star r) s g s2 g2
| derives_plus r s g s1 g1 s2 g2 :
    derives n r s g s1 g1 → derives n (Star r) s1 g1 s2 g2 →
    derives n (Plus r) s g s2 g2
| derives_group i r s g s1 g1 :
    derives n r s g s1 g1 →
    derives n (Group i r) s g s1 (<[i := take (length s - length s1) s]> g1).

(** [r] has no capturing group. *)
Fixpoint plain (r : regex) : bool :=
  match r with
  | Seq r1 r2 => plain r1 && plain r2
  | Star r' | Plus r' => plain r'
  | Group _ _ => false
  | _ => true
  end.

(** [r] has a capturing group of index [i]. *)
Fixpoint binds (i : nat) (r : regex) : bool :=
  match r with
  | Seq r1 r2 => binds i r1 || binds i r2
  | Star r' | Plus r' => binds i r'
  | Group j r' => bool_decide (i = j) || binds i r'
  | _ => false
  end.

(** Every character that [r] can take satisfies [P]. *)
Fixpoint within (P : ascii → Prop) (r : regex) : Prop :=
  match r with
  | Lit c => P c
  | Dot => ∀ c, c ≠ "010"%char → P c
  | OneOf items => ∀ c, in_set items c = true → P c
  | Seq r1 r2 => within P r1 ∧ within P r2
  | Star r' | Plus r' | Group _ r' => within P r'
  | _ => True
  end.

(** [re.match(pattern, text)] *)
Definition re_match (r : regex) (text : string) : option groups :=
  let s := PyStr.chars text in
  run r (length s) s ∅ (λ _ g, Some g).

(** [m.group(i)] *)
Definition group (m : groups) (i : nat) : list ascii := default [] (m !! i).

Definition matches (r : regex) (text : string) : bool :=
  bool_decide (is_Some (re_match r text)).

End Re.

Import Re.

(* ================================================================== *)
(** ** The extractor *)
(* ================================================================== *)

Inductive Level : Type := H1 | H2 | H3.

Global Instance Level_eq_dec : EqDecision Level.
Proof. solve_decision. Defined.

Definition re_digit : regex := OneOf [CDigit].
Definition re_space : regex := OneOf [CSpace].
Definition re_upper : regex := OneOf [CRange "A" "Z"].
Definition re_lower : regex := OneOf [CRange "a" "z"].
Definition re_word : regex := OneOf [CWord].

(** The entries of [self.heading_patterns]; the comments give the source
    patterns with blanks between their parts. *)

(* ^ ( \d+ \. (?: \d+ \. )* ) \s* ( .+ ) $ *)
Definition numbered_pattern : regex :=
  Bol ⨾ Group 1 (Plus re_digit ⨾ Lit "." ⨾ Star (Plus re_digit ⨾ Lit "."))
      ⨾ Star re_space ⨾ Group 2 (Plus Dot) ⨾ Eol.

(* ^ ( [IVX]+ \. ) \s* ( .+ ) $ *)
Definition roman_pattern : regex :=
  Bol ⨾ Group 1 (Plus (OneOf [CLit "I"; CLit "V"; CLit "X"]) ⨾ Lit ".")
      ⨾ Star re_space ⨾ Group 2 (Plus Dot) ⨾ Eol.

(* ^ ( [A-Z] \. ) \s* ( .+ ) $ *)
Definition lettered_pattern : regex :=
  Bol ⨾ Group 1 (re_upper ⨾ Lit ".") ⨾ Star re_space ⨾ Group 2 (Plus Dot) ⨾ Eol.

(* ^ ( [A-Z] [A-Z\s]+ ) $ *)
Definition capitals_pattern : regex :=
  Bol ⨾ Group 1 (re_upper ⨾ Plus (OneOf [CRange "A" "Z"; CSpace])) ⨾ Eol.

(* ^ ( [A-Z] [a-z]+ (?: \s+ [A-Z] [a-z]+ )* ) $ *)
Definition title_case_pattern : regex :=
  Bol ⨾ Group 1 (re_upper ⨾ Plus re_lower
                  ⨾ Star (Plus re_space ⨾ re_upper ⨾ Plus re_lower)) ⨾ Eol.

(** [self.heading_patterns] *)
Definition heading_patterns : list regex :=
  [ numbered_pattern; roman_pattern; lettered_pattern; capitals_pattern;
    title_case_pattern ].

(** [skip_patterns] of [is_heading] *)
Definition skip_patterns : list regex :=
  [ (* ^\d+$ *)          Bol ⨾ Plus re_digit ⨾ Eol;
    (* ^page \d+ *)      Bol ⨾ Word (PyStr.chars "page ") (Plus re_digit);
    (* ^figure \d+ *)    Bol ⨾ Word (PyStr.chars "figure ") (Plus re_digit);
    (* ^table \d+ *)     Bol ⨾ Word (PyStr.chars "table ") (Plus re_digit);
    (* ^\w+@\w+\.\w+ *)  Bol ⨾ Plus re_word ⨾ Lit "@"
                             ⨾ Plus re_word ⨾ Lit "."
                             ⨾ Plus re_word;
    (* ^http *)          Bol ⨾ Word (PyStr.chars "http") Eps;
    (* ^ \( .* \) $ *)   Bol ⨾ Lit "(" ⨾ Star Dot ⨾ Lit ")" ⨾ Eol;
    (* ^ \[ .* \] $ *)   Bol ⨾ Lit "[" ⨾ Star Dot ⨾ Lit "]" ⨾ Eol ].

(** The level a matched pattern gives, from its first group
    (lines 81-90). *)
Definition level_of_group (g1 : list ascii) : Level :=
  if PyStr.contains "." g1 then
    let dots := PyStr.count "." g1 in
    if (dots =? 1)%nat then H1
    else if (dots =? 2)%nat then H2
    else H3
  else H1.

(** The loop over [self.heading_patterns] (lines 78-91): the first pattern
    that matches decides. *)
Fixpoint match_patterns (patterns : list regex) (text : string) : option Level :=
  match patterns with
  | [] => None
  | pattern :: rest =>
      match re_match pattern text with
      | Some m => Some (level_of_group (group m 1))
      | None => match_patterns rest text
      end
  end.

(** The loop over [skip_patterns] (lines 66-68). *)
Definition skipped (text : string) : bool :=
  existsb (λ pattern, matches pattern (PyStr.lower text)) skip_patterns.

Definition is_bold (font_flags : Z) : bool :=
  negb (Z.land font_flags (2 ^ 4) =? 0)%Z.

Definition font_size_ratio (font_size avg_font_size : float) : float :=
  if (0 <? avg_font_size)%float then (font_size / avg_font_size)%float
  else 1%float.

(** Lines 94-100. *)
Definition style_level (text : string) (bold : bool) (ratio : float)
  : option Level :=
  if (1.5 <? ratio)%float || (bold && (1.2 <? ratio)%float) then Some H1
  else if (1.2 <? ratio)%float || bold then Some H2
  else if (1.0 <? ratio)%float && (bold || PyStr.isupper text) then Some H3
  else None.

(** Lines 103-104. *)
Definition caps_level (text : string) : option Level :=
  if PyStr.isupper text && (5 <? PyStr.len text)%nat then Some H2 else None.

(** Lines 107-108. *)
Definition title_level (text : string) : option Level :=
  if PyStr.istitle text && (length (PyStr.split text) <=? 8)%nat
  then Some H3 else None.

(** [a or b] on optional levels: [b] is only looked at when [a] is
    [None]. *)
Definition or_else (a b : option Level) : option Level :=
  match a with Some l => Some l | None => b end.

(** [PDFOutlineExtractor.is_heading] *)
Definition is_heading (text : string) (font_size : float) (font_flags : Z)
    (avg_font_size : float) : bool * option Level :=
  let text := PyStr.strip text in
  if (PyStr.len text <? 3)%nat || (200 <? PyStr.len text)%nat then (false, None)
  else if skipped text then (false, None)
  else
    let bold := is_bold font_flags in
    let ratio := font_size_ratio font_size avg_font_size in
    let level := match_patterns heading_patterns text in
    let level := or_else level (style_level text bold ratio) in
    let level := or_else level (caps_level text) in
    let level := or_else level (title_level text) in
    (bool_decide (is_Some level), level).

(* ------------------------------------------------------------------ *)
(** *** The document, as PyMuPDF hands it over *)

Inductive exn : Type := Exception (msg : string).

Inductive result (A : Type) : Type :=
| Ok (a : A)
| Raise (e : exn).
Arguments Ok {A} a.
Arguments Raise {A} e.

Global Instance result_ret : MRet result := λ A a, Ok a.
Global Instance result_bind : MBind result := λ A B f r,
  match r with
  | Ok a => f a
  | Raise e => Raise e
  end.

(** One span of [page.get_text("dict")]. *)
Record Span : Type := {
  span_text : string;
  span_size : float;
  span_flags : Z
}.

Record Line : Type := { spans : list Span }.

(** A block has lines or, like an image block, has none. *)
Record Block : Type := { lines : option (list Line) }.

Record Page : Type := {
  get_text : result string;          (* page.get_text() *)
  get_text_dict : result (list Block) (* page.get_text("dict")["blocks"] *)
}.

Record Document : Type := {
  metadata_title : option string;    (* doc.metadata.get('title') *)
  pages : list Page
}.

(** Truth value of a string: it is not empty. *)
Definition truthy (s : string) : bool := negb (s =? "")%string.

(* ------------------------------------------------------------------ *)
(** *** extract_title *)

(** Line 35: the stripped lines of the page that are not blank. *)
Definition page_lines (text : string) : list string :=
  line ← PyStr.split_on "010" text;
  if truthy (PyStr.strip line) then [PyStr.strip line] else [].

(** The test of lines 39-41 on one line. *)
Definition looks_like_title (line : string) : bool :=
  ((10 <? PyStr.len line)%nat && (PyStr.len line <? 100)%nat)
  && (negb (matches (Bol ⨾ re_digit) line)
      && negb (PyStr.startswith (PyStr.lower line) "abstract")).

(** The loop of lines 38-42; [None] when it runs to its end. *)
Fixpoint scan_title (lines : list string) : option string :=
  match lines with
  | [] => None
  | line :: rest => if looks_like_title line then Some line else scan_title rest
  end.

(** Line 28. *)
Definition usable_metadata_title (doc : Document) : option string :=
  match metadata_title doc with
  | Some t => if truthy t && truthy (PyStr.strip t) then Some (PyStr.strip t) else None
  | None => None
  end.

(** [PDFOutlineExtractor.extract_title] *)
Definition extract_title (doc : Document) : result string :=
  match usable_metadata_title doc with
  | Some t => Ok t
  | None =>
      match pages doc with
      | page :: _ =>
          text ← get_text page;
          Ok (default "Untitled Document" (scan_title (take 5 (page_lines text))))
      | [] => Ok "Untitled Document"
      end
  end.

(* ------------------------------------------------------------------ *)
(** *** extract_outline *)

(** An entry of [all_texts]. *)
Record TextInfo : Type := {
  text : string;
  font_size : float;
  font_flags : Z;
  page : Z
}.

(** An entry of [outline]. *)
Record Heading : Type := {
  h_level : Level;
  h_text : string;
  h_page : Z
}.

Record Outline : Type := {
  title : string;
  outline : list Heading
}.

Global Instance Level_countable : Countable Level.
Proof.
  refine (inj_countable' (λ l, match l with H1 => 0%nat | H2 => 1%nat | H3 => 2%nat end)
            (λ n, match n with O => H1 | S O => H2 | _ => H3 end) _).
  by intros [].
Defined.

(** Lines 125-136 for one page. *)
Definition page_texts (page_num : nat) (blocks : list Block) : list TextInfo :=
  block ← blocks;
  line ← default [] (lines block);
  span ← spans line;
  let text := PyStr.strip (span_text span) in
  if truthy text then
    [ {| text := text; font_size := span_size span;
         font_flags := span_flags span; page := Z.of_nat page_num + 1 |} ]
  else [].

(** Lines 121-136: the pages from [page_num] on. *)
Fixpoint collect_texts (page_num : nat) (pages : list Page)
  : result (list TextInfo) :=
  match pages with
  | [] => Ok []
  | page :: rest =>
      blocks ← get_text_dict page;
      more ← collect_texts (S page_num) rest;
      Ok (page_texts page_num blocks ++ more)
  end.

(** [sum(font_sizes)]: added up from the left, starting at 0. *)
Definition py_sum (l : list float) : float := foldl PrimFloat.add 0%float l.

(** [float(n)] for a length [n]. *)
Definition float_of_nat (n : nat) : float :=
  PrimFloat.of_uint63 (Uint63.of_Z (Z.of_nat n)).

(** Lines 139-140. *)
Definition avg_font_size (all_texts : list TextInfo) : float :=
  let font_sizes := map font_size all_texts in
  match font_sizes with
  | [] => 12%float
  | _ => (py_sum font_sizes / float_of_nat (length font_sizes))%float
  end.

Definition heading_of (level : Level) (text_info : TextInfo) : Heading :=
  {| h_level := level; h_text := text text_info; h_page := page text_info |}.

(** Lines 143-159: the headings appended to [outline] from [all_texts] on,
    given the texts already in [seen_headings]. *)
Fixpoint scan_headings (avg : float) (seen_headings : gset string)
    (all_texts : list TextInfo) : list Heading :=
  match all_texts with
  | [] => []
  | text_info :: rest =>
      let '(is_head, level) :=
        is_heading (text text_info) (font_size text_info)
                   (font_flags text_info) avg in
      match level with
      | Some l =>
          if is_head && bool_decide (text text_info ∉ seen_headings) then
            heading_of l text_info
              :: scan_headings avg (seen_headings ∪ {[text text_info]}) rest
          else scan_headings avg seen_headings rest
      | None => scan_headings avg seen_headings rest
      end
  end.

(** The sort key [(x['page'], x['text'])] and the order of such pairs. *)
Definition sort_key (x : Heading) : Z * string := (h_page x, h_text x).

Definition key_lt (a b : Z * string) : bool :=
  if (a.1 =? b.1)%Z then String.ltb a.2 b.2 else (a.1 <? b.1)%Z.

(** [outline.sort(key=...)] (line 162): a stable sort; an item goes before
    the first one that is not less than it. *)
Fixpoint insert_sorted (x : Heading) (l : list Heading) : list Heading :=
  match l with
  | [] => [x]
  | y :: l' =>
      if key_lt (sort_key y) (sort_key x) then y :: insert_sorted x l'
      else x :: l
  end.

Definition sort_outline (l : list Heading) : list Heading :=
  foldr insert_sorted [] l.

(** Lines 165-171. *)
Fixpoint remove_duplicates (seen : gset (Level * string)) (l : list Heading)
  : list Heading :=
  match l with
  | [] => []
  | item :: rest =>
      let key := (h_level item, h_text item) in
      if bool_decide (key ∉ seen) then
        item :: remove_duplicates (seen ∪ {[key]}) rest
      else remove_duplicates seen rest
  end.

(** Lines 183-185. *)
Definition error_outline : Outline :=
  {| title := "Error Processing Document"; outline := [] |}.

(** Lines 143-171: from [all_texts] and the average to [unique_outline]. *)
Definition assemble (avg : float) (all_texts : list TextInfo) : list Heading :=
  let outline := scan_headings avg ∅ all_texts in
  let outline := sort_outline outline in
  remove_duplicates ∅ outline.

Section Extractor.

(** [fitz.open]: what opening the file at a path gives. *)
Variable fitz_open : string → result Document.

(** The body of the [try] (lines 115-178). *)
Definition extract_outline_try (pdf_path : string) : result Outline :=
  doc ← fitz_open pdf_path;
  title ← extract_title doc;
  all_texts ← collect_texts 0 (pages doc);
  let avg := avg_font_size all_texts in
  let unique_outline := assemble avg all_texts in
  Ok {| title := title; outline := unique_outline |}.

(** [PDFOutlineExtractor.extract_outline] *)
Definition extract_outline (pdf_path : string) : Outline :=
  match extract_outline_try pdf_path with
  | Ok r => r
  | Raise _ => error_outline
  end.

End Extractor.

(* ------------------------------------------------------------------ *)
(** *** main *)

(** [s.endswith(suffix)] *)
Definition endswith (s suffix : string) : bool :=
  bool_decide (PyStr.chars suffix `suffix_of` PyStr.chars s).

(** [s.replace(old, new)] for a non-empty [old]: the occurrences of [old]
    are replaced from the left; [skip] counts the characters of an
    occurrence that are still to be passed over. *)
Fixpoint replace_from (old new : list ascii) (skip : nat) (l : list ascii)
  : list ascii :=
  match l with
  | [] => []
  | c :: l' =>
      match skip with
      | S k => replace_from old new k l'
      | O =>
          if bool_decide (old `prefix_of` l)
          then new ++ replace_from old new (length old - 1) l'
          else c :: replace_from old new 0 l'
      end
  end.

Definition replace (s old new : string) : string :=
  PyStr.of_chars (replace_from (PyStr.chars old) (PyStr.chars new) 0 (PyStr.chars s)).

(** [os.path.join(a, b)] on a POSIX system. *)
Definition path_join (a b : string) : string :=
  if PyStr.startswith b "/" then b
  else if negb (truthy a) || endswith a "/" then a +:+ b
  else a +:+ "/" +:+ b.

(** What [main] does to the world. *)
Inductive event : Type :=
| MadeDirs (path : string)                  (* os.makedirs(path, exist_ok=True) *)
| Printed (line : string)                   (* print(line) *)
| Dumped (path : string) (result : Outline). (* json.dump(result, open(path, 'w')) *)

Definition input_dir : string := "/app/input".
Definition output_dir : string := "/app/output".

Section Main.

Variable fitz_open : string → result Document.

(** Line 181: what [extract_outline] prints. *)
Definition extract_outline_prints (pdf_path : string) : list event :=
  match extract_outline_try fitz_open pdf_path with
  | Ok _ => []
  | Raise (Exception msg) =>
      [Printed ("Error processing " +:+ pdf_path +:+ ": " +:+ msg)]
  end.

(** Lines 198-209: the body of the loop of [main]. *)
Definition process (filename : string) : list event :=
  if endswith (PyStr.lower filename) ".pdf" then
    let input_path := path_join input_dir filename in
    let output_filename := replace filename ".pdf" ".json" in
    let output_path := path_join output_dir output_filename in
    [Printed ("Processing " +:+ filename +:+ "...")]
    ++ extract_outline_prints input_path
    ++ [Dumped output_path (extract_outline fitz_open input_path);
        Printed ("Saved outline to " +:+ output_filename)]
  else [].


End Main.


(** [sub in s], on the characters. *)
Fixpoint occurs (sub l : list ascii) : bool :=
  bool_decide (sub `prefix_of` l)
  || match l with
     | [] => false
     | _ :: l' => occurs sub l'
     end.

(* ================================================================== *)
(** ** What the specification says, in its own words *)
(* ================================================================== *)





(** A run of decimal digits, at least one. *)
Definition digits (d : list ascii) : bool :=
  negb (bool_decide (d = [])) && forallb PyStr.isdecimal d.

(** Groups of digits with a dot after each: "1.2.3." from 1, 2 and 3. *)
Definition dotted (ds : list (list ascii)) : list ascii :=
  concat ((λ d, d ++ ["."%char]) <$> ds).

(** What is left of [l] after its leading digits. *)
Fixpoint after_digits (l : list ascii) : list ascii :=
  match l with
  | c :: l' => if PyStr.isdecimal c then after_digits l' else l
  | [] => []
  end.

(** [l] begins with digits and a dot. *)
Definition starts_dotted (l : list ascii) : bool :=
  match l with
  | c :: l' =>
      PyStr.isdecimal c
      && match after_digits l' with
         | x :: _ => Ascii.eqb x "."
         | [] => false
         end
  | [] => false
  end.

(** A line "starts with a digit". *)
Definition starts_with_digit (line : string) : bool :=
  match PyStr.chars line with
  | c :: _ => PyStr.isdecimal c
  | [] => false
  end.




(** The classifier's verdict on an entry of [all_texts]. *)
Definition classify (avg : float) (text_info : TextInfo) : option Level :=
  (is_heading (text text_info) (font_size text_info)
              (font_flags text_info) avg).2.

(** The pair that must be unique in an outline. *)
Definition level_text (h : Heading) : Level * string := (h_level h, h_text h).

(** Ascending page number, then ascending text. *)
Definition page_then_text (a b : Heading) : Prop :=
  (h_page a < h_page b)%Z
  ∨ (h_page a = h_page b ∧ (h_text a ≤ h_text b)%string).

(** The assembler without its second pass. *)
Definition assemble_one_pass (avg : float) (all_texts : list TextInfo)
  : list Heading :=
  sort_outline (scan_headings avg ∅ all_texts).

(** Something raises while the document is opened or its text is read. *)
Inductive extraction_raises (fitz_open : string → result Document)
    (pdf_path : string) : Prop :=
| open_raises e :
    fitz_open pdf_path = Raise e →
    extraction_raises fitz_open pdf_path
| first_page_raises doc page rest e :
    fitz_open pdf_path = Ok doc →
    usable_metadata_title doc = None →
    pages doc = page :: rest →
    get_text page = Raise e →
    extraction_raises fitz_open pdf_path
| page_dict_raises doc page e :
    fitz_open pdf_path = Ok doc →
    page ∈ pages doc →
    get_text_dict page = Raise e →
    extraction_raises fitz_open pdf_path.

(** Capital and small letters of the ASCII alphabet. *)
Definition is_capital (c : ascii) : bool := PyStr.between 65 90 c.
Definition is_small (c : ascii) : bool := PyStr.between 97 122 c.
Definition is_letter (c : ascii) : bool := is_capital c || is_small c.

(** A letter of any alphabet, among the characters of the model; each of
    them is upper case or lower case for Python. *)
Definition is_alphabetic (c : ascii) : bool :=
  PyStr.isupper_char c || PyStr.islower_char c.

(** A capitalised word: an ASCII capital and then small letters, at least
    one. *)
Definition capitalised (w : list ascii) : Prop :=
  ∃ c rest, w = c :: rest ∧ is_capital c = true ∧ rest ≠ []
            ∧ Forall (λ x, is_small x = true) rest.

(** Words with one blank before each. *)
Definition blank_before (ws : list (list ascii)) : list ascii :=
  concat ((λ w, " "%char :: w) <$> ws).

(** The level of a text comes from the all-capitals rule of lines 103-104:
    the text is through both gates, no structural pattern and no style rule
    gave a level, and the rule's test holds. *)
Definition caps_fallback_fires (text : string) (fs : float) (fl : Z)
    (avg : float) : Prop :=
  let t := PyStr.strip text in
  (PyStr.len t <? 3)%nat || (200 <? PyStr.len t)%nat = false
  ∧ skipped t = false
  ∧ match_patterns heading_patterns t = None
  ∧ style_level t (is_bold fl) (font_size_ratio fs avg) = None
  ∧ caps_level t = Some H2.

(* ------------------------------------------------------------------ *)
(** *** Sample inputs *)

Definition fragment (t : string) (size : float) (flags : Z) (p : Z) : TextInfo :=
  {| text := t; font_size := size; font_flags := flags; page := p |}.

(** A running header on two pages, with body text in between. *)
Definition sample_texts : list TextInfo :=
  [ fragment "1. Overview" 14 0 1;
    fragment "Some body text." 10 0 1;
    fragment "1. Overview" 14 0 2 ].




(** The text of an upper-case E with an acute accent, code 201, and then
    COLE NORMALE. *)
Definition ecole_normale : string := String "201" "COLE NORMALE".

(** Two headings of one page, the later one first in the alphabet. *)
Definition swapped_texts : list TextInfo :=
  [ fragment "B. Results" 14 0 1; fragment "A. Methods" 14 0 1 ].

Definition unreadable_page : Page :=
  {| get_text := Ok "Quarterly Report";
     get_text_dict := Raise (Exception "cannot read page") |}.

Definition unreadable_doc : Document :=
  {| metadata_title := Some "Report"; pages := [unreadable_page] |}.

(** A readable document of one page. *)
Definition sample_doc : Document :=
  {| metadata_title := None;
     pages := [ {| get_text := Ok "Quarterly Report";
                   get_text_dict :=
                     Ok [ {| lines := None |};
                          {| lines := Some [ {| spans :=
                               [ {| span_text := " 1. Overview ";
                                    span_size := 14; span_flags := 0 |};
                                 {| span_text := "   ";
                                    span_size := 30; span_flags := 16 |};
                                 {| span_text := "Some body text.";
                                    span_size := 10; span_flags := 0 |} ] |} ] |} ] |} ] |}.

Definition titled_doc : Document :=
  {| metadata_title := Some "  My Paper  "; pages := [] |}.


(* ================================================================== *)
(** ** The matcher: the bound on the rounds of a repetition is enough *)
(* ================================================================== *)

Lemma star_loop_local step fuel :
  local_step step → local_step (star_loop step fuel).
Proof.
  intros Hstep. induction fuel as [|fuel IH]; intros s g k1 k2 Hk; simpl.
  - by apply Hk.
  - rewrite (Hk s g) by done.
    erewrite (Hstep s g); [reflexivity|].
    intros s' g' Hlen. simpl.
    destruct (_ <? _)%nat; [|done].
    apply IH. intros s'' g'' Hlen'. apply Hk. lia.
Qed.

Lemma run_local r n : local_step (run r n).
Proof.
  induction r as [| | |c| |items|r1 IH1 r2 IH2|r IH|r IH|i r IH];
    intros s g k1 k2 Hk; simpl.
  - by apply Hk.
  - destruct (_ =? _)%nat; [by apply Hk|done].
  - destruct s as [|c [|c' s]]; [by apply Hk| |done].
    destruct (Ascii.eqb c _); [by apply Hk|done].
  - destruct s as [|c' s]; [done|].
    destruct (Ascii.eqb c' c); [|done]. apply Hk. simpl. lia.
  - destruct s as [|c' s]; [done|].
    destruct (Ascii.eqb c' _); [done|]. apply Hk. simpl. lia.
  - destruct s as [|c' s]; [done|].
    destruct (in_set items c'); [|done]. apply Hk. simpl. lia.
  - apply IH1. intros s' g' Hlen. apply IH2.
    intros s'' g'' Hlen'. apply Hk. lia.
  - by apply star_loop_local.
  - apply IH. intros s' g' Hlen. apply star_loop_local; [done|].
    intros s'' g'' Hlen'. apply Hk. lia.
  - apply IH. intros s' g' Hlen. by apply Hk.
Qed.

Lemma star_loop_answering step fuel :
  local_step step → answering_step step → answering_step (star_loop step fuel).
Proof.
  intros Hlocal Hstep. induction fuel as [|fuel IH]; intros s g; simpl; [done|].
  erewrite (Hlocal s g); [by rewrite Hstep|].
  intros s' g' _. simpl. destruct (_ <? _)%nat; [apply IH|done].
Qed.

Lemma run_answering r n : answering_step (run r n).
Proof.
  induction r as [| | |c| |items|r1 IH1 r2 IH2|r IH|r IH|i r IH];
    intros s g; simpl.
  - done.
  - by destruct (_ =? _)%nat.
  - destruct s as [|c [|c' s]]; [done| |done]. by destruct (Ascii.eqb c _).
  - destruct s as [|c' s]; [done|]. by destruct (Ascii.eqb c' c).
  - destruct s as [|c' s]; [done|]. by destruct (Ascii.eqb c' _).
  - destruct s as [|c' s]; [done|]. by destruct (in_set items c').
  - erewrite (run_local r1 n s g); [apply IH1|]. intros s' g' _. apply IH2.
  - apply star_loop_answering; [apply run_local|done].
  - erewrite (run_local r n s g); [apply IH|].
    intros s' g' _. apply star_loop_answering; [apply run_local|done].
  - apply IH.
Qed.

(** More rounds than the input has characters change nothing: the bound
    [length s] in [run] never cuts a repetition short. *)
Lemma star_loop_fuel r n fuel1 fuel2 s g k :
  (length s ≤ fuel1)%nat → (length s ≤ fuel2)%nat →
  star_loop (run r n) fuel1 s g k = star_loop (run r n) fuel2 s g k.
Proof.
  revert fuel2 s g. induction fuel1 as [|fuel1 IH]; intros fuel2 s g H1 H2.
  - destruct s; [|simpl in H1; lia].
    destruct fuel2 as [|fuel2]; [done|]. simpl.
    erewrite (run_local r n [] g); [by rewrite run_answering|].
    intros s' g' _. reflexivity.
  - destruct fuel2 as [|fuel2].
    + destruct s; [|simpl in H2; lia]. simpl.
      erewrite (run_local r n [] g); [by rewrite run_answering|].
      intros s' g' _. reflexivity.
    + simpl. erewrite (run_local r n s g); [reflexivity|].
      intros s' g' Hlen. simpl.
      destruct (_ <? _)%nat eqn:Hlt; [|done].
      apply Nat.ltb_lt in Hlt. apply IH; lia.
Qed.

(* ================================================================== *)
(** ** The classifier *)
(* ================================================================== *)

(** A text that leaves both gates behind and matches a structural pattern
    gets that pattern's level, whatever the font. *)
Lemma is_heading_structural text fs fl avg l :
  (PyStr.len (PyStr.strip text) <? 3)%nat
    || (200 <? PyStr.len (PyStr.strip text))%nat = false →
  skipped (PyStr.strip text) = false →
  match_patterns heading_patterns (PyStr.strip text) = Some l →
  is_heading text fs fl avg = (true, Some l).
Proof.
  intros Hlen Hskip Hpat. unfold is_heading.
  rewrite Hlen, Hskip, Hpat. reflexivity.
Qed.

(** Without a structural match the style rules, then the two casing rules,
    decide. *)
Lemma is_heading_fallback text fs fl avg :
  (PyStr.len (PyStr.strip text) <? 3)%nat
    || (200 <? PyStr.len (PyStr.strip text))%nat = false →
  skipped (PyStr.strip text) = false →
  match_patterns heading_patterns (PyStr.strip text) = None →
  (is_heading text fs fl avg).2 =
    or_else (or_else (style_level (PyStr.strip text) (is_bold fl)
                                  (font_size_ratio fs avg))
                     (caps_level (PyStr.strip text)))
            (title_level (PyStr.strip text)).
Proof.
  intros Hlen Hskip Hpat. unfold is_heading.
  rewrite Hlen, Hskip, Hpat. reflexivity.
Qed.

(** The flag of the result says whether there is a level. *)
Lemma is_heading_flag text fs fl avg :
  (is_heading text fs fl avg).1 = bool_decide (is_Some (is_heading text fs fl avg).2).
Proof.
  unfold is_heading.
  destruct (_ || _); [reflexivity|].
  destruct (skipped _); reflexivity.
Qed.

Ltac structural :=
  intros; apply is_heading_structural; vm_compute; reflexivity.

Lemma level_of_group_count g1 :
  level_of_group g1 =
    match PyStr.count "." g1 with
    | 1 => H1
    | 2 => H2
    | _ => if PyStr.contains "." g1 then H3 else H1
    end%nat.
Proof.
  unfold level_of_group.
  destruct (PyStr.contains "." g1) eqn:Hin.
  - by destruct (PyStr.count "." g1) as [|[|[|n]]].
  - unfold PyStr.contains in Hin. apply bool_decide_eq_false in Hin.
    unfold PyStr.count.
    destruct (filter _ g1) as [|x l] eqn:Hfilter; [done|].
    exfalso. apply Hin.
    assert (x ∈ filter (λ y : ascii, y = "."%char) g1) as Hx
      by (rewrite Hfilter; left).
    by apply list_elem_of_filter in Hx as [-> ?].
Qed.

Lemma dotted_prefix_levels (fs : float) (fl : Z) (avg : float) :
  is_heading "1.2 Background" fs fl avg = (true, Some H1)
  ∧ is_heading "1.2.3 Detail" fs fl avg = (true, Some H2).
Proof. split; structural. Qed.

(** Where the numbered pattern takes a text that is through both gates, the
    level comes from the dots of the first group. *)
Lemma numbered_match_level text fs fl avg m :
  (PyStr.len (PyStr.strip text) <? 3)%nat
    || (200 <? PyStr.len (PyStr.strip text))%nat = false →
  skipped (PyStr.strip text) = false →
  re_match numbered_pattern (PyStr.strip text) = Some m →
  is_heading text fs fl avg
  = (true, Some (match PyStr.count "." (group m 1) with
                 | 1 => H1
                 | 2 => H2
                 | _ => if PyStr.contains "." (group m 1) then H3 else H1
                 end%nat)).
Proof.
  intros Hlen Hskip Hm.
  apply is_heading_structural; [done..|].
  unfold heading_patterns, match_patterns. rewrite Hm. f_equal.
  apply level_of_group_count.
Qed.

(** C1 as stated fails: "1.2 Background" does not come out as H2, nor
    "1.2.3 Detail" as H3. *)
Lemma numbered_heading_levels_counterexample :
  (is_heading "1.2 Background" 12 0 12 = (true, Some H1)
   ∧ is_heading "1.2 Background" 12 0 12 ≠ (true, Some H2))
  ∧ (is_heading "1.2.3 Detail" 12 0 12 = (true, Some H2)
     ∧ is_heading "1.2.3 Detail" 12 0 12 ≠ (true, Some H3)).
Proof.
  assert (H12 := dotted_prefix_levels 12 0 12).
  destruct H12 as (Ha & Hb). rewrite Ha, Hb. by repeat split.
Qed.

(** C2, as the code has it.  With an average of 10 and no bold flag,
    "Methods" is an H1 heading at size 16 and also at size 11, and indeed for
    every font, since the title-case pattern takes it before the style rules
    are reached.  The style rules decide a text that matches no structural
    pattern, such as "methods": H1 at size 16, no heading at size 11. *)
Theorem style_fallback_law :
  (∀ fs fl avg, is_heading "Methods" fs fl avg = (true, Some H1))
  ∧ is_heading "Methods" 16 0 10 = (true, Some H1)
  ∧ is_heading "Methods" 11 0 10 = (true, Some H1)
  ∧ is_heading "methods" 16 0 10 = (true, Some H1)
  ∧ is_heading "methods" 11 0 10 = (false, None).
Proof.
  split; [structural|].
  repeat split; vm_compute; reflexivity.
Qed.

(** C2 as stated fails: "Methods" at size 11 is a heading. *)
Lemma style_fallback_law_counterexample :
  is_heading "Methods" 11 0 10 = (true, Some H1)
  ∧ is_heading "Methods" 11 0 10 ≠ (false, None).
Proof.
  assert (H : is_heading "Methods" 11 0 10 = (true, Some H1))
    by (vm_compute; reflexivity).
  rewrite H. by split.
Qed.

Lemma skipped_is_no_heading text fs fl avg :
  skipped (PyStr.strip text) = true →
  is_heading text fs fl avg = (false, None).
Proof.
  intros Hskip. unfold is_heading. rewrite Hskip.
  by destruct (_ || _).
Qed.

(** C7.  A text whose stripped, lower-cased form matches one of the skip
    patterns is no heading, whatever the font size, the style flags and the
    average. *)
Theorem noise_gate text fs fl avg pattern :
  pattern ∈ skip_patterns →
  is_Some (re_match pattern (PyStr.lower (PyStr.strip text))) →
  is_heading text fs fl avg = (false, None).
Proof.
  intros Hin Hmatch. apply skipped_is_no_heading.
  unfold skipped. apply existsb_exists. exists pattern. split.
  - by apply list_elem_of_In.
  - unfold matches. by apply bool_decide_eq_true.
Qed.

Lemma noise_gate_witness :
  is_heading "Page 3" 30 16 10 = (false, None).
Proof.
  apply (noise_gate "Page 3" 30 16 10
           (Bol ⨾ Word (PyStr.chars "page ") (Plus re_digit))).
  - right. left.
  - vm_compute. by eexists.
Defined.

(** The texts the specification lists are all turned down. *)
Lemma listed_noise_is_no_heading fs fl avg :
  Forall (λ text, is_heading text fs fl avg = (false, None))
    ["42"; "page 3"; "figure 1"; "a@b.com"; "http://x"; "(note)"; "[ref]"].
Proof.
  repeat constructor; apply skipped_is_no_heading; vm_compute; reflexivity.
Qed.

(* ================================================================== *)
(** ** Font statistics *)
(* ================================================================== *)






Lemma mean_of_three_sizes :
  avg_font_size [ {| text := "a"; font_size := 10; font_flags := 0; page := 1 |};
                  {| text := "b"; font_size := 12; font_flags := 0; page := 1 |};
                  {| text := "c"; font_size := 17; font_flags := 0; page := 2 |} ]
  = 13%float.
Proof. vm_compute. reflexivity. Qed.

(* ================================================================== *)
(** ** Title resolution *)
(* ================================================================== *)












(* ================================================================== *)
(** ** Failures of the document provider *)
(* ================================================================== *)

Lemma collect_texts_raises page_num (pages : list Page) page e :
  page ∈ pages → get_text_dict page = Raise e →
  ∃ e', collect_texts page_num pages = Raise e'.
Proof.
  intros Hin Hraise. revert page_num.
  induction pages as [|p rest IH]; intros page_num; [by apply elem_of_nil in Hin|].
  simpl. apply elem_of_cons in Hin as [<-|Hin].
  - rewrite Hraise. by exists e.
  - destruct (get_text_dict p) as [blocks|e0]; simpl; [|by exists e0].
    destruct (IH Hin (S page_num)) as [e' ->]. by exists e'.
Qed.

Lemma extract_outline_try_raises fitz_open pdf_path :
  extraction_raises fitz_open pdf_path →
  ∃ e, extract_outline_try fitz_open pdf_path = Raise e.
Proof.
  unfold extract_outline_try.
  intros [e Hopen|doc page rest e Hopen Hmeta Hpages Htext|doc page e Hopen Hin Hdict].
  - rewrite Hopen. by exists e.
  - rewrite Hopen. simpl. unfold extract_title.
    rewrite Hmeta, Hpages, Htext. by exists e.
  - rewrite Hopen. simpl.
    destruct (extract_title doc) as [title|e0]; simpl; [|by exists e0].
    destruct (collect_texts_raises 0 (pages doc) page e Hin Hdict) as [e' ->].
    by exists e'.
Qed.

(** C5.  When opening the document or reading its text raises,
    [extract_outline] returns the outline titled "Error Processing Document"
    with no heading; being a function into [Outline], it hands no exception
    on to its caller. *)
Theorem error_handling fitz_open pdf_path :
  extraction_raises fitz_open pdf_path →
  extract_outline fitz_open pdf_path
  = {| title := "Error Processing Document"; outline := [] |}.
Proof.
  intros Hraises. unfold extract_outline.
  by destruct (extract_outline_try_raises _ _ Hraises) as [e ->].
Qed.

(** C5 at a document whose only page cannot be read. *)
Lemma error_handling_witness :
  extraction_raises (λ _, Ok unreadable_doc) "report.pdf"
  ∧ extract_outline (λ _, Ok unreadable_doc) "report.pdf"
    = {| title := "Error Processing Document"; outline := [] |}.
Proof.
  assert (extraction_raises (λ _, Ok unreadable_doc) "report.pdf") as Hraises.
  { apply (page_dict_raises _ _ unreadable_doc unreadable_page
             (Exception "cannot read page")); [reflexivity| |reflexivity].
    apply list_elem_of_here. }
  split; [exact Hraises|].
  exact (error_handling (λ _, Ok unreadable_doc) "report.pdf" Hraises).
Defined.

(* ================================================================== *)
(** ** The first pass: one heading per text *)
(* ================================================================== *)

(** The loop body, read through [classify]. *)
Lemma scan_headings_cons avg seen text_info rest :
  scan_headings avg seen (text_info :: rest) =
    match classify avg text_info with
    | Some l =>
        if bool_decide (text text_info ∉ seen) then
          heading_of l text_info
            :: scan_headings avg (seen ∪ {[text text_info]}) rest
        else scan_headings avg seen rest
    | None => scan_headings avg seen rest
    end.
Proof.
  simpl. unfold classify.
  pose proof (is_heading_flag (text text_info) (font_size text_info)
                (font_flags text_info) avg) as Hflag.
  destruct (is_heading _ _ _ _) as [is_head [l|]]; simpl in *; [|done].
  by rewrite Hflag.
Qed.

(** No heading carries a text that was seen before the scan. *)
Lemma scan_headings_fresh avg seen all_texts h :
  h ∈ scan_headings avg seen all_texts → h_text h ∉ seen.
Proof.
  revert seen. induction all_texts as [|ti rest IH]; intros seen.
  - by intros ?%elem_of_nil.
  - rewrite scan_headings_cons.
    destruct (classify avg ti) as [l|]; [|by apply IH].
    case_bool_decide as Hseen; [|by apply IH].
    intros [->|Hin]%elem_of_cons; [done|].
    apply IH in Hin. set_solver.
Qed.

(** The texts of the headings of the first pass are pairwise distinct. *)
Lemma scan_headings_NoDup avg seen all_texts :
  NoDup (h_text <$> scan_headings avg seen all_texts).
Proof.
  revert seen. induction all_texts as [|ti rest IH]; intros seen.
  - constructor.
  - rewrite scan_headings_cons.
    destruct (classify avg ti) as [l|]; [|by apply IH].
    case_bool_decide as Hseen; [|by apply IH].
    rewrite fmap_cons. apply NoDup_cons. split; [|by apply IH].
    intros (h & Heq & Hin)%list_elem_of_fmap.
    apply scan_headings_fresh in Hin. simpl in Heq. set_solver.
Qed.

Lemma scan_headings_seen avg seen all_texts t :
  t ∈ seen → filter (λ h, h_text h = t) (scan_headings avg seen all_texts) = [].
Proof.
  intros Hseen.
  destruct (filter _ _) as [|h hs] eqn:Hfilter; [done|].
  assert (h ∈ filter (λ h, h_text h = t) (scan_headings avg seen all_texts))
    as [Ht Hin]%list_elem_of_filter by (rewrite Hfilter; left).
  apply scan_headings_fresh in Hin. by subst t.
Qed.

(** The heading with a given text comes from the first entry with that text
    which the classifier takes. *)
Lemma scan_headings_first avg seen before ti after l :
  text ti ∉ seen →
  (∀ ti', ti' ∈ before → text ti' = text ti → classify avg ti' = None) →
  classify avg ti = Some l →
  filter (λ h, h_text h = text ti)
         (scan_headings avg seen (before ++ ti :: after))
  = [heading_of l ti].
Proof.
  revert seen. induction before as [|x before IH]; intros seen Hseen Hbefore Hti.
  - simpl app. rewrite scan_headings_cons, Hti.
    rewrite bool_decide_eq_true_2 by done.
    rewrite filter_cons_True by done.
    by rewrite scan_headings_seen by set_solver.
  - rewrite <- app_comm_cons, scan_headings_cons.
    assert (∀ ti', ti' ∈ before → text ti' = text ti → classify avg ti' = None)
      as Hbefore' by (intros ti' Hin; apply Hbefore; by right).
    destruct (classify avg x) as [lx|] eqn:Hx; [|by apply IH].
    case_bool_decide as Hxseen; [|by apply IH].
    assert (text x ≠ text ti) as Hne.
    { intros Heq. specialize (Hbefore x). rewrite Hx in Hbefore.
      by specialize (Hbefore ltac:(left) Heq). }
    rewrite filter_cons_False by done.
    apply IH; [|done..].
    apply not_elem_of_union. split; [done|].
    intros ?%elem_of_singleton. by apply Hne.
Qed.

(* ================================================================== *)
(** ** The sort *)
(* ================================================================== *)

Lemma insert_sorted_Permutation x l : insert_sorted x l ≡ₚ x :: l.
Proof.
  induction l as [|y l IH]; simpl; [done|].
  destruct (key_lt _ _); [|done].
  by rewrite IH, Permutation_swap.
Qed.

Lemma sort_outline_Permutation l : sort_outline l ≡ₚ l.
Proof.
  induction l as [|x l IH]; simpl; [done|].
  by rewrite insert_sorted_Permutation, IH.
Qed.

Lemma string_ltb_le a b : String.ltb a b = true → (a ≤ b)%string.
Proof.
  unfold String.le, String.ltb, String.leb.
  by destruct (String.compare a b).
Qed.

Lemma string_ltb_false_le a b : String.ltb a b = false → (b ≤ a)%string.
Proof.
  unfold String.le, String.ltb, String.leb.
  rewrite (String.compare_antisym a b).
  by destruct (String.compare b a).
Qed.

Lemma key_lt_page_then_text a b :
  key_lt (sort_key a) (sort_key b) = true → page_then_text a b.
Proof.
  unfold key_lt, sort_key, page_then_text. simpl.
  destruct (Z.eqb_spec (h_page a) (h_page b)) as [Heq|Hne].
  - intros Hlt%string_ltb_le. by right.
  - intros Hlt%Z.ltb_lt. by left.
Qed.

Lemma key_lt_false_page_then_text a b :
  key_lt (sort_key a) (sort_key b) = false → page_then_text b a.
Proof.
  unfold key_lt, sort_key, page_then_text. simpl.
  destruct (Z.eqb_spec (h_page a) (h_page b)) as [Heq|Hne].
  - intros Hlt%string_ltb_false_le. by right.
  - intros Hlt%Z.ltb_ge. left. lia.
Qed.

Global Instance page_then_text_trans : Transitive page_then_text.
Proof.
  intros a b c [Hab|[Hab Htab]] [Hbc|[Hbc Htbc]]; unfold page_then_text.
  - left. lia.
  - left. lia.
  - left. lia.
  - right. split; [lia|]. by etrans.
Qed.

Lemma insert_sorted_HdRel a x l :
  page_then_text a x → HdRel page_then_text a l →
  HdRel page_then_text a (insert_sorted x l).
Proof.
  intros Hax Hal. destruct l as [|y l]; simpl; [by constructor|].
  destruct (key_lt _ _); constructor; [by inversion Hal|done].
Qed.

Lemma insert_sorted_Sorted x l :
  Sorted page_then_text l → Sorted page_then_text (insert_sorted x l).
Proof.
  induction 1 as [|y l Hl IH Hhd]; simpl; [by repeat constructor|].
  destruct (key_lt (sort_key y) (sort_key x)) eqn:Hlt.
  - constructor; [done|].
    apply insert_sorted_HdRel; [by apply key_lt_page_then_text|done].
  - constructor; [by constructor|].
    constructor. by apply key_lt_false_page_then_text.
Qed.

Lemma sort_outline_Sorted l : Sorted page_then_text (sort_outline l).
Proof.
  induction l as [|x l IH]; simpl; [constructor|].
  by apply insert_sorted_Sorted.
Qed.

(* ================================================================== *)
(** ** The second pass *)
(* ================================================================== *)

Lemma remove_duplicates_fresh seen l :
  NoDup (level_text <$> l) →
  (∀ h, h ∈ l → level_text h ∉ seen) →
  remove_duplicates seen l = l.
Proof.
  revert seen. induction l as [|h l IH]; intros seen Hnodup Hfresh; [done|].
  rewrite fmap_cons in Hnodup. apply NoDup_cons in Hnodup as [Hh Hnodup].
  simpl. rewrite bool_decide_eq_true_2 by (apply Hfresh; left).
  f_equal. apply IH; [done|].
  intros h' Hin. specialize (Hfresh h' ltac:(by right)).
  assert (level_text h' ≠ level_text h).
  { intros Heq. apply Hh. rewrite <- Heq. by apply list_elem_of_fmap_2. }
  apply not_elem_of_union. split; [done|].
  by intros ?%elem_of_singleton.
Qed.

Lemma NoDup_text_level_text l :
  NoDup (h_text <$> l) → NoDup (level_text <$> l).
Proof.
  intros Hnodup. apply (NoDup_fmap_1 snd).
  by rewrite <- list_fmap_compose.
Qed.

Lemma sorted_scan_NoDup avg all_texts :
  NoDup (h_text <$> sort_outline (scan_headings avg ∅ all_texts)).
Proof.
  rewrite sort_outline_Permutation. apply scan_headings_NoDup.
Qed.

(** The second pass finds nothing to remove. *)
Lemma assemble_one_pass_eq avg all_texts :
  assemble avg all_texts = assemble_one_pass avg all_texts.
Proof.
  unfold assemble, assemble_one_pass.
  apply remove_duplicates_fresh; [|set_solver].
  apply NoDup_text_level_text, sorted_scan_NoDup.
Qed.

(* ================================================================== *)
(** ** The assembled outline *)
(* ================================================================== *)

Lemma assemble_NoDup avg all_texts :
  NoDup (level_text <$> assemble avg all_texts).
Proof.
  rewrite assemble_one_pass_eq.
  apply NoDup_text_level_text, sorted_scan_NoDup.
Qed.

Lemma assemble_first avg before ti after l :
  (∀ ti', ti' ∈ before → text ti' = text ti → classify avg ti' = None) →
  classify avg ti = Some l →
  filter (λ h, h_text h = text ti) (assemble avg (before ++ ti :: after))
  = [heading_of l ti].
Proof.
  intros Hbefore Hti.
  rewrite assemble_one_pass_eq. unfold assemble_one_pass.
  apply Permutation_singleton_r.
  rewrite sort_outline_Permutation.
  by rewrite (scan_headings_first avg ∅ before ti after l).
Qed.

Lemma assemble_Sorted avg all_texts :
  StronglySorted page_then_text (assemble avg all_texts).
Proof.
  rewrite assemble_one_pass_eq.
  apply Sorted_StronglySorted; [apply _|]. apply sort_outline_Sorted.
Qed.

(** C4.  In an assembled outline no two entries have the same level and
    text.  And when a text is taken as a heading at some fragment, with no
    earlier fragment of the same text taken, the outline has exactly one
    entry with that text: the one of that fragment, with the level it got
    there and its page number, whatever comes later. *)
Theorem deduplication avg all_texts :
  NoDup (level_text <$> assemble avg all_texts)
  ∧ ∀ before ti after l,
      all_texts = before ++ ti :: after →
      (∀ ti', ti' ∈ before → text ti' = text ti → classify avg ti' = None) →
      classify avg ti = Some l →
      filter (λ h, h_text h = text ti) (assemble avg all_texts)
      = [ {| h_level := l; h_text := text ti; h_page := page ti |} ].
Proof.
  split; [apply assemble_NoDup|].
  intros before ti after l -> Hbefore Hti. by apply assemble_first.
Qed.

(** The running header of [sample_texts] is kept once, with page 1. *)
Lemma deduplication_witness :
  filter (λ h, h_text h = "1. Overview")
         (assemble (avg_font_size sample_texts) sample_texts)
  = [ {| h_level := H1; h_text := "1. Overview"; h_page := 1 |} ].
Proof.
  apply (proj2 (deduplication (avg_font_size sample_texts) sample_texts)
           [] (fragment "1. Overview" 14 0 1)
           [fragment "Some body text." 10 0 1; fragment "1. Overview" 14 0 2]
           H1).
  - reflexivity.
  - intros ti' Hin. by apply elem_of_nil in Hin.
  - vm_compute. reflexivity.
Defined.

(** C6.  The headings of every outline are in ascending order of page
    number and, on one page, in ascending order of text; this need not be
    the order of the document, as [swapped_texts] shows. *)
Theorem ordering :
  (∀ fitz_open pdf_path,
      StronglySorted page_then_text (outline (extract_outline fitz_open pdf_path)))
  ∧ (∀ avg all_texts, StronglySorted page_then_text (assemble avg all_texts))
  ∧ h_text <$> assemble (avg_font_size swapped_texts) swapped_texts
    = ["A. Methods"; "B. Results"].
Proof.
  split; [|split].
  - intros fitz_open pdf_path. unfold extract_outline, extract_outline_try.
    destruct (fitz_open pdf_path) as [doc|e]; simpl; [|constructor].
    destruct (extract_title doc) as [t|e]; simpl; [|constructor].
    destruct (collect_texts 0 (pages doc)) as [all_texts|e]; simpl; [|constructor].
    apply assemble_Sorted.
  - apply assemble_Sorted.
  - vm_compute. reflexivity.
Qed.

(** C10.  The second pass removes nothing from the sorted result of the
    first pass, so the assembler gives what it would give without its second
    pass. *)
Theorem second_pass_removes_nothing avg all_texts :
  remove_duplicates ∅ (sort_outline (scan_headings avg ∅ all_texts))
  = sort_outline (scan_headings avg ∅ all_texts)
  ∧ assemble avg all_texts = assemble_one_pass avg all_texts.
Proof.
  split; apply assemble_one_pass_eq.
Qed.

(* ================================================================== *)
(** ** The all-capitals pattern *)
(* ================================================================== *)

Lemma chars_of_chars l : PyStr.chars (PyStr.of_chars l) = l.
Proof. apply list_ascii_of_string_of_list_ascii. Qed.

Lemma lstrip_chars_head l c rest :
  PyStr.lstrip_chars l = c :: rest → PyStr.isspace c = false.
Proof.
  induction l as [|x l IH]; simpl; [done|].
  destruct (PyStr.isspace x) eqn:Hx; [done|].
  by intros [= <- _].
Qed.

Lemma lstrip_chars_suffix l : ∃ k, l = k ++ PyStr.lstrip_chars l.
Proof.
  induction l as [|x l [k IH]]; simpl; [by exists []|].
  destruct (PyStr.isspace x); [|by exists []].
  exists (x :: k). simpl. by f_equal.
Qed.

Lemma rstrip_chars_prefix l : ∃ k, l = PyStr.rstrip_chars l ++ k.
Proof.
  unfold PyStr.rstrip_chars.
  destruct (lstrip_chars_suffix (rev l)) as [k Hk].
  exists (rev k). rewrite <- rev_app_distr, <- Hk. by rewrite rev_involutive.
Qed.

(** A stripped text does not begin with white space. *)
Lemma strip_head text c rest :
  PyStr.chars (PyStr.strip text) = c :: rest → PyStr.isspace c = false.
Proof.
  unfold PyStr.strip, PyStr.strip_chars. rewrite chars_of_chars. intros Hstrip.
  destruct (rstrip_chars_prefix (PyStr.lstrip_chars (PyStr.chars text))) as [k Hk].
  rewrite Hstrip in Hk. simpl in Hk.
  by apply lstrip_chars_head in Hk.
Qed.

Lemma run_OneOf items n : run (OneOf items) n = class_step items.
Proof. reflexivity. Qed.

Lemma class_step_cons items c s g k :
  class_step items (c :: s) g k = if in_set items c then k s g else None.
Proof. reflexivity. Qed.

(** A repeated class that takes all of the input hands the empty rest to
    what follows. *)
Lemma star_loop_all items fuel s g k m :
  Forall (λ c, in_set items c = true) s →
  (length s ≤ fuel)%nat →
  k [] g = Some m →
  star_loop (class_step items) fuel s g k = Some m.
Proof.
  intros Hall. revert fuel.
  induction Hall as [|c s Hc Hs IH]; intros fuel Hfuel Hk.
  - destruct fuel; simpl; by rewrite ?Hk.
  - destruct fuel as [|fuel]; simpl in Hfuel; [lia|].
    simpl. rewrite Hc.
    rewrite (proj2 (Nat.ltb_lt _ _)) by lia.
    by rewrite IH by (done || lia).
Qed.

(** A repeated class fails when what follows fails on every rest of the
    input. *)
Lemma star_loop_none (Q : ascii → Prop) items fuel s g k :
  (∀ s' g', Forall Q s' → k s' g' = None) →
  Forall Q s →
  star_loop (class_step items) fuel s g k = None.
Proof.
  intros Hk. revert s g.
  induction fuel as [|fuel IH]; intros s g Hs; simpl; [by apply Hk|].
  destruct s as [|c s]; [by apply Hk|].
  rewrite class_step_cons.
  destruct (in_set items c); [|by apply Hk].
  apply Forall_cons in Hs as Hs'. destruct Hs' as [_ Hs'].
  destruct (_ <? _)%nat; [rewrite IH by done|]; by apply Hk.
Qed.

Lemma in_set_capital c : in_set [CRange "A" "Z"] c = is_capital c.
Proof. unfold in_set. simpl. apply orb_false_r. Qed.

Lemma in_set_capital_space c :
  in_set [CRange "A" "Z"; CSpace] c = is_capital c || PyStr.isspace c.
Proof. unfold in_set. simpl. by rewrite orb_false_r. Qed.

Lemma capitals_pattern_matches text c rest :
  PyStr.chars text = c :: rest →
  is_capital c = true →
  rest ≠ [] →
  Forall (λ x, is_capital x || PyStr.isspace x = true) rest →
  ∃ m, re_match capitals_pattern text = Some m ∧ group m 1 = c :: rest.
Proof.
  intros Hchars Hc Hrest Hall.
  unfold re_match, capitals_pattern, re_upper. rewrite Hchars.
  destruct rest as [|x rest]; [done|]. apply Forall_cons in Hall as [Hx Hall].
  cbn [run]. rewrite Nat.eqb_refl, in_set_capital, Hc.
  rewrite in_set_capital_space, Hx.
  eexists. split.
  - apply (star_loop_all [CRange "A" "Z"; CSpace]); [|done|reflexivity].
    eapply Forall_impl; [exact Hall|].
    intros y Hy. by rewrite in_set_capital_space.
  - unfold group. rewrite lookup_insert_eq. simpl. by rewrite take_ge.
Qed.

Lemma capital_not_digit c : is_capital c = true → PyStr.isdecimal c = false.
Proof.
  unfold is_capital, PyStr.isdecimal, PyStr.between.
  intros [H1 H2]%andb_prop. apply N.leb_le in H1.
  apply andb_false_iff. right. apply N.leb_gt. lia.
Qed.

Lemma capital_or_space_not_dot x :
  is_capital x || PyStr.isspace x = true → x ≠ "."%char.
Proof. intros Hx ->. vm_compute in Hx. discriminate. Qed.

Lemma numbered_pattern_no_digit text c rest :
  PyStr.chars text = c :: rest →
  PyStr.isdecimal c = false →
  re_match numbered_pattern text = None.
Proof.
  intros Hchars Hc. unfold re_match, numbered_pattern, re_digit.
  rewrite Hchars. cbn [run]. rewrite Nat.eqb_refl.
  unfold in_set. simpl. by rewrite Hc.
Qed.

Lemma roman_pattern_no_dot text :
  Forall (λ x, x ≠ "."%char) (PyStr.chars text) →
  re_match roman_pattern text = None.
Proof.
  intros Hall. unfold re_match, roman_pattern.
  destruct (PyStr.chars text) as [|c rest] eqn:Hchars; [reflexivity|].
  apply Forall_cons in Hall as [_ Hall].
  cbn [run]. rewrite Nat.eqb_refl.
  destruct (in_set _ c); [|reflexivity].
  apply (star_loop_none (λ x, x ≠ "."%char)
           [CLit "I"; CLit "V"; CLit "X"]); [|done].
  intros [|y s'] g' Hs'; [reflexivity|].
  apply Forall_cons in Hs' as [Hy _].
  by destruct (Ascii.eqb_spec y ".").
Qed.

Lemma lettered_pattern_no_dot text c x rest :
  PyStr.chars text = c :: x :: rest →
  x ≠ "."%char →
  re_match lettered_pattern text = None.
Proof.
  intros Hchars Hx. unfold re_match, lettered_pattern, re_upper.
  rewrite Hchars. cbn [run]. rewrite Nat.eqb_refl.
  destruct (in_set _ c); [|reflexivity].
  by destruct (Ascii.eqb_spec x ".").
Qed.

Lemma level_of_group_no_dot g1 :
  Forall (λ x, x ≠ "."%char) g1 → level_of_group g1 = H1.
Proof.
  intros Hall. unfold level_of_group, PyStr.contains.
  rewrite bool_decide_eq_false_2; [reflexivity|].
  intros Hin. by apply (proj1 (Forall_forall _ _) Hall) in Hin.
Qed.

(** A text of capitals and white space that begins with a capital and has
    a second character is taken by the all-capitals pattern, at level H1. *)
Lemma match_patterns_capitals text c rest :
  PyStr.chars text = c :: rest →
  is_capital c = true →
  rest ≠ [] →
  Forall (λ x, is_capital x || PyStr.isspace x = true) rest →
  match_patterns heading_patterns text = Some H1.
Proof.
  intros Hchars Hc Hrest Hall.
  assert (Forall (λ x, x ≠ "."%char) (c :: rest)) as Hdots.
  { constructor.
    - apply capital_or_space_not_dot. by rewrite Hc.
    - eapply Forall_impl; [exact Hall|]. apply capital_or_space_not_dot. }
  unfold heading_patterns, match_patterns.
  rewrite (numbered_pattern_no_digit text c rest)
    by auto using capital_not_digit.
  rewrite roman_pattern_no_dot by (by rewrite Hchars).
  destruct rest as [|x rest]; [done|].
  rewrite (lettered_pattern_no_dot text c x rest); [|done|].
  2: { apply Forall_cons in Hdots as [_ Hdots]. by apply Forall_cons in Hdots as [? _]. }
  destruct (capitals_pattern_matches text c (x :: rest)) as (m & -> & ->); [done..|].
  by rewrite level_of_group_no_dot.
Qed.

Lemma match_patterns_None patterns text p :
  match_patterns patterns text = None → p ∈ patterns → re_match p text = None.
Proof.
  induction patterns as [|q patterns IH]; intros Hnone Hin;
    [by apply elem_of_nil in Hin|].
  simpl in Hnone. destruct (re_match q text) eqn:Hq; [done|].
  apply elem_of_cons in Hin as [->|Hin]; auto.
Qed.

Lemma isupper_from_no_lower cased l :
  PyStr.isupper_from cased l = true →
  Forall (λ x, PyStr.islower_char x = false) l.
Proof.
  revert cased. induction l as [|x l IH]; intros cased; simpl; [by constructor|].
  destruct (PyStr.islower_char x) eqn:Hx; [done|].
  intros Hl. constructor; [done|]. by eapply IH.
Qed.

Lemma small_is_lower x : is_small x = true → PyStr.islower_char x = true.
Proof. unfold is_small, PyStr.islower_char. by intros ->. Qed.

(** A stripped text of at least two characters, all of them capitals or
    white space, begins with a capital and is taken by a pattern. *)
Lemma stripped_capitals text :
  (2 ≤ PyStr.len (PyStr.strip text))%nat →
  Forall (λ x, is_capital x || PyStr.isspace x = true)
         (PyStr.chars (PyStr.strip text)) →
  match_patterns heading_patterns (PyStr.strip text) = Some H1.
Proof.
  unfold PyStr.len. intros Hlen Hall.
  destruct (PyStr.chars (PyStr.strip text)) as [|c rest] eqn:Hchars;
    [simpl in Hlen; lia|].
  apply Forall_cons in Hall as [Hc Hall].
  apply (match_patterns_capitals _ c rest); [done| | |done].
  - apply strip_head in Hchars. rewrite Hchars in Hc. by rewrite orb_false_r in Hc.
  - intros ->. simpl in Hlen. lia.
Qed.

Lemma stripped_capitals_pattern text :
  (2 ≤ PyStr.len (PyStr.strip text))%nat →
  Forall (λ x, is_capital x || PyStr.isspace x = true)
         (PyStr.chars (PyStr.strip text)) →
  is_Some (re_match capitals_pattern (PyStr.strip text)).
Proof.
  unfold PyStr.len. intros Hlen Hall.
  destruct (PyStr.chars (PyStr.strip text)) as [|c rest] eqn:Hchars;
    [simpl in Hlen; lia|].
  apply Forall_cons in Hall as [Hc Hall].
  destruct (capitals_pattern_matches (PyStr.strip text) c rest)
    as (m & -> & _); [done| | |done|done].
  - apply strip_head in Hchars. rewrite Hchars in Hc. by rewrite orb_false_r in Hc.
  - intros ->. simpl in Hlen. lia.
Qed.

Lemma length_gate_passed n :
  (n <? 3)%nat || (200 <? n)%nat = false → (3 ≤ n ≤ 200)%nat.
Proof.
  intros [H1 H2]%orb_false_elim.
  apply Nat.ltb_ge in H1. apply Nat.ltb_ge in H2. lia.
Qed.

(** C9, as the code has it.  A text that, stripped, is made of the capital
    letters A to Z and white space only and is through the length gate and
    the noise gate is an H1 heading by the all-capitals pattern, whatever the
    font size, the style flags and the average.  So when the all-capitals
    rule of the fallback gives H2, the stripped text has a character that is
    neither one of the letters A to Z and a to z nor white space: a digit, a
    punctuation mark, or a letter of another alphabet. *)
Theorem all_capitals_rule :
  (∀ text fs fl avg,
      Forall (λ x, is_capital x || PyStr.isspace x = true)
             (PyStr.chars (PyStr.strip text)) →
      (PyStr.len (PyStr.strip text) <? 3)%nat
        || (200 <? PyStr.len (PyStr.strip text))%nat = false →
      skipped (PyStr.strip text) = false →
      is_Some (re_match capitals_pattern (PyStr.strip text))
      ∧ is_heading text fs fl avg = (true, Some H1))
  ∧ (∀ text fs fl avg,
      caps_fallback_fires text fs fl avg →
      is_heading text fs fl avg = (true, Some H2)
      ∧ ∃ x, x ∈ PyStr.chars (PyStr.strip text)
             ∧ is_letter x = false ∧ PyStr.isspace x = false).
Proof.
  split.
  - intros text fs fl avg Hall Hlen Hskip.
    apply length_gate_passed in Hlen as Hlen'. split.
    + apply stripped_capitals_pattern; [lia|done].
    + apply is_heading_structural; [done..|].
      apply stripped_capitals; [lia|done].
  - intros text fs fl avg (Hlen & Hskip & Hpat & Hstyle & Hcaps). split.
    { unfold is_heading. rewrite Hlen, Hskip, Hpat. simpl.
      by rewrite Hstyle, Hcaps. }
    destruct (decide (Forall (λ x, is_letter x || PyStr.isspace x = true)
                             (PyStr.chars (PyStr.strip text)))) as [Hall|Hex].
    + exfalso.
      unfold caps_level in Hcaps.
      destruct (PyStr.isupper (PyStr.strip text)) eqn:Hupper; [|done].
      apply length_gate_passed in Hlen.
      apply isupper_from_no_lower in Hupper.
      assert (Forall (λ x, is_capital x || PyStr.isspace x = true)
                     (PyStr.chars (PyStr.strip text))) as Hcapitals.
      { apply Forall_forall. intros x Hx.
        apply (proj1 (Forall_forall _ _) Hall) in Hx as Hletter.
        apply (proj1 (Forall_forall _ _) Hupper) in Hx as Hlower.
        unfold is_letter in Hletter.
        destruct (is_small x) eqn:Hsmall;
          [apply small_is_lower in Hsmall; congruence|].
        by rewrite orb_false_r in Hletter. }
      rewrite stripped_capitals in Hpat by (lia || done). done.
    + apply not_Forall_Exists in Hex; [|apply _].
      apply Exists_exists in Hex as (x & Hx & Hnot). simpl in Hnot.
      exists x. split; [done|].
      apply not_true_is_false in Hnot. by apply orb_false_elim in Hnot.
Qed.

Lemma all_capitals_rule_witness :
  is_heading "ANNUAL REPORT" 9 0 12 = (true, Some H1)
  ∧ caps_fallback_fires "Q3 RESULTS 2024" 10 0 10
  ∧ is_heading "Q3 RESULTS 2024" 10 0 10 = (true, Some H2).
Proof.
  split; [|split].
  - apply (proj1 all_capitals_rule "ANNUAL REPORT" 9%float 0 12%float).
    + vm_compute. repeat constructor.
    + vm_compute. reflexivity.
    + vm_compute. reflexivity.
  - vm_compute. repeat split.
  - apply (proj2 all_capitals_rule "Q3 RESULTS 2024" 10%float 0 10%float).
    vm_compute. repeat split.
Defined.

(** C9 as stated fails: the text of [ecole_normale] is made of upper-case
    letters and a blank, begins with a letter and is through both gates; the
    all-capitals pattern does not take it, and at size 10 with the average
    10 and no bold flag it is an H2 heading by the all-capitals rule of the
    fallback, though each of its characters is a letter or a blank. *)
Lemma all_capitals_rule_counterexample :
  PyStr.strip ecole_normale = ecole_normale
  ∧ Forall (λ x, PyStr.isupper_char x || PyStr.isspace x = true)
           (PyStr.chars ecole_normale)
  ∧ (PyStr.len ecole_normale <? 3)%nat
      || (200 <? PyStr.len ecole_normale)%nat = false
  ∧ skipped ecole_normale = false
  ∧ re_match capitals_pattern ecole_normale = None
  ∧ (is_heading ecole_normale 10 0 10 = (true, Some H2)
     ∧ is_heading ecole_normale 10 0 10 ≠ (true, Some H1))
  ∧ caps_fallback_fires ecole_normale 10 0 10
  ∧ Forall (λ x, is_alphabetic x || PyStr.isspace x = true)
           (PyStr.chars ecole_normale).
Proof.
  assert (is_heading ecole_normale 10 0 10 = (true, Some H2)) as ->
    by (vm_compute; reflexivity).
  repeat split; try (vm_compute; reflexivity); try done.
  - vm_compute. repeat constructor.
  - vm_compute. repeat constructor.
Qed.

(* ================================================================== *)
(** ** The matcher: what a match means *)
(* ================================================================== *)

Lemma star_loop_sound n r fuel :
  (∀ s g k m, run r n s g k = Some m →
              ∃ s' g', derives n r s g s' g' ∧ k s' g' = Some m) →
  ∀ s g k m, star_loop (run r n) fuel s g k = Some m →
             ∃ s' g', derives n (Star r) s g s' g' ∧ k s' g' = Some m.
Proof.
  intros Hr. induction fuel as [|fuel IH]; intros s g k m; simpl.
  - intros Hk. exists s, g. split; [constructor|done].
  - destruct (run r n s g _) as [m'|] eqn:Hrun.
    + intros [= ->]. apply Hr in Hrun as (s1 & g1 & Hd & Hk).
      destruct (Nat.ltb_spec (length s1) (length s)) as [Hlt|]; [|done].
      apply IH in Hk as (s2 & g2 & Hd' & Hk).
      exists s2, g2. split; [|done]. by eapply derives_star_more.
    + intros Hk. exists s, g. split; [constructor|done].
Qed.

(** What the matcher finds is a reading of the pattern. *)
Lemma run_sound n r s g k m :
  run r n s g k = Some m →
  ∃ s' g', derives n r s g s' g' ∧ k s' g' = Some m.
Proof.
  revert s g k m.
  induction r as [| | |c| |items|r1 IH1 r2 IH2|r IH|r IH|i r IH];
    intros s g k m; simpl.
  - intros Hk. exists s, g. split; [constructor|done].
  - destruct (Nat.eqb_spec (length s) n); [|done].
    intros Hk. exists s, g. split; [by constructor|done].
  - destruct s as [|c [|c' s]]; [| |done].
    + intros Hk. exists [], g. split; [constructor; by left|done].
    + destruct (Ascii.eqb_spec c "010"); [|done]. subst c.
      intros Hk. eexists _, g. split; [constructor; by right|done].
  - destruct s as [|c' s]; [done|].
    destruct (Ascii.eqb_spec c' c); [|done]. subst c'.
    intros Hk. exists s, g. split; [constructor|done].
  - destruct s as [|c' s]; [done|].
    destruct (Ascii.eqb_spec c' "010"); [done|].
    intros Hk. exists s, g. split; [by constructor|done].
  - destruct s as [|c' s]; [done|].
    destruct (in_set items c') eqn:Hc; [|done].
    intros Hk. exists s, g. split; [by constructor|done].
  - intros (s1 & g1 & Hd1 & Hrun)%IH1.
    apply IH2 in Hrun as (s2 & g2 & Hd2 & Hk).
    exists s2, g2. split; [by econstructor|done].
  - by apply star_loop_sound.
  - intros (s1 & g1 & Hd1 & Hloop)%IH.
    apply star_loop_sound in Hloop as (s2 & g2 & Hd2 & Hk); [|done].
    exists s2, g2. split; [by econstructor|done].
  - intros (s1 & g1 & Hd1 & Hk)%IH.
    eexists s1, _. split; [by constructor|done].
Qed.

Lemma star_loop_Some step fuel s g k :
  is_Some (k s g) → is_Some (star_loop step fuel s g k).
Proof.
  intros Hk. destruct fuel as [|fuel]; simpl; [done|].
  by destruct (step s g _).
Qed.

(** Where a reading of the pattern exists that lets the rest go through,
    the matcher finds a match. *)
Lemma run_complete n r s g s' g' :
  derives n r s g s' g' →
  ∀ k, is_Some (k s' g') → is_Some (run r n s g k).
Proof.
  induction 1 as [s g|s g Hn|s g Hs|c s g|c s g Hc|items c s g Hc
                 |r1 r2 s g s1 g1 s2 g2 _ IH1 _ IH2
                 |r s g
                 |r s g s1 g1 s2 g2 _ IH1 Hlt _ IH2
                 |r s g s1 g1 s2 g2 _ IH1 _ IH2
                 |i r s g s1 g1 _ IH]; intros k Hk; simpl.
  - done.
  - by rewrite (proj2 (Nat.eqb_eq _ _) Hn).
  - by destruct Hs as [->| ->].
  - by rewrite Ascii.eqb_refl.
  - by destruct (Ascii.eqb_spec c "010").
  - by rewrite Hc.
  - apply IH1, IH2, Hk.
  - by apply star_loop_Some.
  - specialize (IH2 k Hk). simpl in IH2.
    destruct (length s) as [|fuel] eqn:Hlen; [lia|]. simpl.
    destruct (run r n s g _) as [m|] eqn:Hrun; [done|].
    exfalso. eapply is_Some_None. rewrite <- Hrun. apply IH1.
    rewrite (proj2 (Nat.ltb_lt _ _)) by lia.
    rewrite (star_loop_fuel r n fuel (length s1)) by lia. done.
  - apply IH1. specialize (IH2 k Hk). by simpl in IH2.
  - apply IH. done.
Qed.

(** [re.match] succeeds exactly when the pattern has a reading at the front
    of the text. *)
Lemma re_match_derives r text :
  is_Some (re_match r text) ↔
  ∃ s' g', derives (PyStr.len text) r (PyStr.chars text) ∅ s' g'.
Proof.
  unfold re_match, PyStr.len. split.
  - intros [m (s' & g' & Hd & _)%run_sound]. by exists s', g'.
  - intros (s' & g' & Hd). by eapply run_complete.
Qed.

Lemma re_match_sound r text m :
  re_match r text = Some m →
  ∃ s', derives (PyStr.len text) r (PyStr.chars text) ∅ s' m.
Proof.
  unfold re_match, PyStr.len.
  intros (s' & g' & Hd & [= <-])%run_sound. by exists s'.
Qed.

(** A reading changes no group that the pattern does not have. *)
Lemma derives_lookup n i r s g s' g' :
  binds i r = false → derives n r s g s' g' → g' !! i = g !! i.
Proof.
  intros Hi Hd.
  induction Hd as [| | | | | |r1 r2 s g s1 g1 s2 g2 _ IH1 _ IH2
                  |
                  |r s g s1 g1 s2 g2 _ IH1 Hlt _ IH2
                  |r s g s1 g1 s2 g2 _ IH1 _ IH2
                  |j r s g s1 g1 _ IH]; simpl in Hi; try done.
  - apply orb_false_elim in Hi as [H1 H2]. by rewrite IH2, IH1.
  - by rewrite IH2, IH1.
  - by rewrite IH2, IH1.
  - apply orb_false_elim in Hi as [Hij%bool_decide_eq_false H1].
    rewrite lookup_insert_ne by done. auto.
Qed.

Lemma derives_plain n r s g s' g' :
  plain r = true → derives n r s g s' g' → g' = g.
Proof.
  intros Hp Hd.
  induction Hd as [| | | | | |r1 r2 s g s1 g1 s2 g2 _ IH1 _ IH2
                  |
                  |r s g s1 g1 s2 g2 _ IH1 Hlt _ IH2
                  |r s g s1 g1 s2 g2 _ IH1 _ IH2
                  |j r s g s1 g1 _ IH]; simpl in Hp; try done.
  - apply andb_prop in Hp as [H1 H2]. by rewrite IH2, IH1.
  - by rewrite IH2, IH1.
  - by rewrite IH2, IH1.
Qed.

(** What a reading takes is a front part of the input, made of characters
    that the pattern can take. *)
Lemma derives_within P n r s g s' g' :
  within P r → derives n r s g s' g' →
  ∃ w, s = w ++ s' ∧ Forall P w.
Proof.
  intros HP Hd. induction Hd; simpl in HP;
    try (by exists []);
    try (by eexists [_]; split; [done|]; repeat constructor; auto).
  - destruct HP as [HP1 HP2].
    destruct (IHHd1 HP1) as (w1 & -> & Hw1), (IHHd2 HP2) as (w2 & -> & Hw2).
    exists (w1 ++ w2). split; [by rewrite app_assoc|]. by apply Forall_app.
  - destruct (IHHd1 HP) as (w1 & -> & Hw1), (IHHd2 HP) as (w2 & -> & Hw2).
    exists (w1 ++ w2). split; [by rewrite app_assoc|]. by apply Forall_app.
  - destruct (IHHd1 HP) as (w1 & -> & Hw1), (IHHd2 HP) as (w2 & -> & Hw2).
    exists (w1 ++ w2). split; [by rewrite app_assoc|]. by apply Forall_app.
  - auto.
Qed.

Lemma derives_front n r s g s' g' :
  derives n r s g s' g' → ∃ w, s = w ++ s'.
Proof.
  intros Hd.
  destruct (derives_within (λ _, True) n r s g s' g') as (w & Hw & _);
    [|done|by exists w].
  clear. induction r; simpl; auto.
Qed.

Lemma take_consumed (w s' : list ascii) :
  take (length (w ++ s') - length s') (w ++ s') = w.
Proof.
  rewrite length_app, Nat.add_sub. by rewrite take_app_length.
Qed.

(** The first group of a pattern of the shape [^(X)REST] is the front part
    of the text that [X] takes. *)
Lemma first_group x rest text m :
  plain x = true → binds 1 rest = false →
  re_match (Bol ⨾ Group 1 x ⨾ rest) text = Some m →
  ∃ s1, PyStr.chars text = group m 1 ++ s1
        ∧ derives (PyStr.len text) x (PyStr.chars text) ∅ s1 ∅.
Proof.
  intros Hplain Hbinds (s' & Hd)%re_match_sound.
  inversion Hd as [| | | | | |? ? ? ? s0 g0 ? ? Hbol Hd'| | | |]; subst.
  inversion Hbol; subst.
  inversion Hd' as [| | | | | |? ? ? ? s1 g1 ? ? Hgroup Hrest| | | |]; subst.
  inversion Hgroup as [| | | | | | | | | |? ? ? ? ? g2 Hx]; subst.
  apply (derives_plain _ _ _ _ _ _ Hplain) in Hx as Hg2. subst g2.
  apply (derives_lookup _ 1) in Hrest; [|done].
  rewrite lookup_insert_eq in Hrest.
  destruct (derives_front _ _ _ _ _ _ Hx) as (w & Hw).
  unfold group. rewrite Hrest. simpl. rewrite Hw, take_consumed.
  exists s1. split; [done|]. by rewrite <- Hw.
Qed.

Lemma count_dot_app w1 w2 :
  PyStr.count "." (w1 ++ w2) = (PyStr.count "." w1 + PyStr.count "." w2)%nat.
Proof. unfold PyStr.count. by rewrite filter_app, length_app. Qed.

Lemma count_dot_none w :
  Forall (λ x, x ≠ "."%char) w → PyStr.count "." w = 0%nat.
Proof.
  intros Hw. unfold PyStr.count.
  induction Hw as [|x w Hx _ IH]; [done|].
  by rewrite filter_cons_False.
Qed.

Lemma level_of_group_one_dot w :
  Forall (λ x, x ≠ "."%char) w → level_of_group (w ++ ["."%char]) = H1.
Proof.
  intros Hw. unfold level_of_group.
  rewrite count_dot_app, count_dot_none by done. simpl.
  by destruct (PyStr.contains _ _).
Qed.

Lemma roman_not_dot c :
  in_set [CLit "I"; CLit "V"; CLit "X"] c = true → c ≠ "."%char.
Proof. intros Hc ->. vm_compute in Hc. discriminate. Qed.

Lemma capital_not_dot c : in_set [CRange "A" "Z"] c = true → c ≠ "."%char.
Proof. intros Hc ->. vm_compute in Hc. discriminate. Qed.

Lemma small_not_dot c : in_set [CRange "a" "z"] c = true → c ≠ "."%char.
Proof. intros Hc ->. vm_compute in Hc. discriminate. Qed.

Lemma space_not_dot c : in_set [CSpace] c = true → c ≠ "."%char.
Proof. intros Hc ->. vm_compute in Hc. discriminate. Qed.

Lemma capital_space_not_dot c :
  in_set [CRange "A" "Z"; CSpace] c = true → c ≠ "."%char.
Proof. intros Hc ->. vm_compute in Hc. discriminate. Qed.

Lemma roman_pattern_level text m :
  re_match roman_pattern text = Some m → level_of_group (group m 1) = H1.
Proof.
  intros (s1 & Hchars & Hd)%first_group; [|done..].
  inversion Hd as [| | | | | |? ? ? ? s0 g0 ? ? Hplus Hlit| | | |]; subst.
  inversion Hlit; subst.
  apply (derives_within (λ x, x ≠ "."%char)) in Hplus as (w & Hw & Hdots);
    [|exact roman_not_dot].
  rewrite Hw in Hchars.
  assert (group m 1 = w ++ ["."%char]) as ->.
  { apply (app_inv_tail s1). by rewrite <- Hchars, <- app_assoc. }
  by apply level_of_group_one_dot.
Qed.

Lemma lettered_pattern_level text m :
  re_match lettered_pattern text = Some m → level_of_group (group m 1) = H1.
Proof.
  intros (s1 & Hchars & Hd)%first_group; [|done..].
  remember (PyStr.chars text) as s eqn:Hs. clear Hs. revert Hchars.
  inversion Hd as [| | | | | |? ? ? ? s0 g0 ? ? Hup Hlit| | | |]; subst.
  inversion Hlit; subst. inversion Hup as [| | | | |? c ? ? Hc| | | | |]; subst.
  intros Hchars.
  assert (group m 1 = [c] ++ ["."%char]) as ->.
  { apply (app_inv_tail s1). by rewrite <- Hchars. }
  apply level_of_group_one_dot. constructor; [|done].
  by apply capital_not_dot.
Qed.

Lemma capitals_pattern_level text m :
  re_match capitals_pattern text = Some m → level_of_group (group m 1) = H1.
Proof.
  intros (s1 & Hchars & Hd)%first_group; [|done..].
  apply (derives_within (λ x, x ≠ "."%char)) in Hd as (w & Hw & Hdots);
    [|exact (conj capital_not_dot capital_space_not_dot)].
  rewrite Hw in Hchars. apply app_inv_tail in Hchars as <-.
  by apply level_of_group_no_dot.
Qed.

Lemma title_case_pattern_level text m :
  re_match title_case_pattern text = Some m → level_of_group (group m 1) = H1.
Proof.
  intros (s1 & Hchars & Hd)%first_group; [|done..].
  apply (derives_within (λ x, x ≠ "."%char)) in Hd as (w & Hw & Hdots);
    [|unfold re_upper, re_lower, re_space; simpl;
      repeat split; auto using capital_not_dot, small_not_dot, space_not_dot].
  rewrite Hw in Hchars. apply app_inv_tail in Hchars as <-.
  by apply level_of_group_no_dot.
Qed.

Lemma numbered_pattern_digit text m :
  re_match numbered_pattern text = Some m → starts_with_digit text = true.
Proof.
  intros (s1 & Hchars & Hd)%first_group; [|done..].
  unfold starts_with_digit.
  remember (PyStr.chars text) as s eqn:Hs. clear Hs Hchars.
  inversion Hd as [| | | | | |? ? ? ? s0 g0 ? ? Hplus _| | | |]; subst.
  inversion Hplus as [| | | | | | | | |? ? ? s2 g2 ? ? Hone _|]; subst.
  inversion Hone as [| | | | |? c ? ? Hc| | | | |]; subst.
  unfold in_set in Hc. simpl in Hc. by rewrite orb_false_r in Hc.
Qed.

Lemma levels_below_h1 text l :
  match_patterns heading_patterns text = Some l →
  l ≠ H1 →
  is_Some (re_match numbered_pattern text) ∧ starts_with_digit text = true.
Proof.
  unfold heading_patterns, match_patterns. intros Hl Hne.
  destruct (re_match numbered_pattern text) as [m|] eqn:Hnum.
  { split; [done|]. by eapply numbered_pattern_digit. }
  exfalso. apply Hne.
  destruct (re_match roman_pattern text) as [m|] eqn:Hroman.
  { injection Hl as <-. by eapply roman_pattern_level. }
  destruct (re_match lettered_pattern text) as [m|] eqn:Hlettered.
  { injection Hl as <-. by eapply lettered_pattern_level. }
  destruct (re_match capitals_pattern text) as [m|] eqn:Hcapitals.
  { injection Hl as <-. by eapply capitals_pattern_level. }
  destruct (re_match title_case_pattern text) as [m|] eqn:Htitle; [|done].
  injection Hl as <-. by eapply title_case_pattern_level.
Qed.

(** X7.  Among the structural patterns only the numbered one gives a level
    below H1: when the loop over the patterns gives H2 or H3, the numbered
    pattern matched and the text starts with a digit.  The roman, lettered,
    all-capitals and title-case patterns always give H1. *)
Theorem deeper_levels_are_numbered text l :
  match_patterns heading_patterns text = Some l →
  l ≠ H1 →
  is_Some (re_match numbered_pattern text) ∧ starts_with_digit text = true.
Proof. apply levels_below_h1. Qed.

Lemma deeper_levels_are_numbered_witness :
  match_patterns heading_patterns "1.2.3 Detail" = Some H2
  ∧ starts_with_digit "1.2.3 Detail" = true.
Proof.
  split; [vm_compute; reflexivity|].
  apply (deeper_levels_are_numbered "1.2.3 Detail" H2); [|done].
  vm_compute. reflexivity.
Defined.

(* ================================================================== *)
(** ** The noise gate, pattern by pattern *)
(* ================================================================== *)

Lemma chars_lower text :
  PyStr.chars (PyStr.lower text) = map PyStr.lower_char (PyStr.chars text).
Proof. unfold PyStr.lower. apply chars_of_chars. Qed.

Ltac each_character c :=
  destruct c as [[] [] [] [] [] [] [] []]; vm_compute; try done.

Lemma lower_char_digit c : PyStr.isdecimal c = true → PyStr.lower_char c = c.
Proof. each_character c. Qed.

Lemma lower_char_newline c :
  c ≠ "010"%char → PyStr.lower_char c ≠ "010"%char.
Proof. each_character c. Qed.

Lemma derives_star_class n items w s' g :
  Forall (λ c, in_set items c = true) w →
  derives n (Star (OneOf items)) (w ++ s') g s' g.
Proof.
  induction 1 as [|c w Hc _ IH]; simpl; [constructor|].
  eapply derives_star_more; [by constructor| |done]. simpl. lia.
Qed.

Lemma derives_star_class_all n items w g :
  Forall (λ c, in_set items c = true) w →
  derives n (Star (OneOf items)) w g [] g.
Proof.
  intros Hw. rewrite <- (app_nil_r w) at 1. by apply derives_star_class.
Qed.

Lemma derives_star_dot n w s' g :
  Forall (λ c, c ≠ "010"%char) w →
  derives n (Star Dot) (w ++ s') g s' g.
Proof.
  induction 1 as [|c w Hc _ IH]; simpl; [constructor|].
  eapply derives_star_more; [by constructor| |done]. simpl. lia.
Qed.

Lemma derives_word n l r s g s' g' :
  derives n r s g s' g' → derives n (Word l r) (l ++ s) g s' g'.
Proof.
  intros Hr. induction l as [|c l IH]; simpl; [done|].
  eapply derives_seq; [constructor|done].
Qed.

Lemma skipped_by pattern text :
  pattern ∈ skip_patterns →
  is_Some (re_match pattern (PyStr.lower text)) →
  skipped text = true.
Proof.
  intros Hin Hmatch. unfold skipped. apply existsb_exists.
  exists pattern. split; [by apply list_elem_of_In|].
  unfold matches. by apply bool_decide_eq_true.
Qed.

Lemma short_is_no_heading text fs fl avg :
  (PyStr.len (PyStr.strip text) < 3)%nat →
  is_heading text fs fl avg = (false, None).
Proof.
  intros Hlen. unfold is_heading.
  by rewrite (proj2 (Nat.ltb_lt _ _) Hlen).
Qed.

(** X3.  A text that, stripped, is made of decimal digits only is no
    heading, whatever the font. *)
Theorem digits_are_no_heading text fs fl avg :
  Forall (λ c, PyStr.isdecimal c = true) (PyStr.chars (PyStr.strip text)) →
  is_heading text fs fl avg = (false, None).
Proof.
  intros Hdigits.
  destruct (PyStr.chars (PyStr.strip text)) as [|c rest] eqn:Hchars.
  { apply short_is_no_heading. unfold PyStr.len. rewrite Hchars. simpl. lia. }
  apply skipped_is_no_heading.
  apply (skipped_by (Bol ⨾ Plus re_digit ⨾ Eol)); [left|].
  apply re_match_derives. exists [], ∅.
  unfold PyStr.len. rewrite chars_lower, Hchars.
  assert (map PyStr.lower_char (c :: rest) = c :: rest) as ->.
  { clear Hchars. induction Hdigits as [|x l Hx _ IH]; [done|].
    simpl. by rewrite lower_char_digit, IH. }
  apply Forall_cons in Hdigits as [Hc Hrest].
  eapply derives_seq; [by constructor|].
  eapply derives_seq; [|constructor; by left].
  eapply derives_plus.
  - constructor. unfold in_set. simpl. by rewrite Hc.
  - apply derives_star_class_all.
    eapply Forall_impl; [exact Hrest|].
    intros x Hx. unfold in_set. simpl. by rewrite Hx.
Qed.

Lemma prefix_chars p s :
  String.prefix p s = true → ∃ rest, PyStr.chars s = PyStr.chars p ++ rest.
Proof.
  revert s. induction p as [|a p IH]; intros s.
  - intros _. exists (PyStr.chars s). done.
  - destruct s as [|b s]; simpl; [done|].
    destruct (Ascii.ascii_dec a b) as [->|]; [|done].
    intros (rest & Hrest)%IH. exists rest.
    unfold PyStr.chars in *. simpl. by rewrite Hrest.
Qed.

(** X4.  A text that, stripped, starts with "http" in any letter case is
    no heading, whatever the font. *)
Theorem links_are_no_heading text fs fl avg :
  PyStr.startswith (PyStr.lower (PyStr.strip text)) "http" = true →
  is_heading text fs fl avg = (false, None).
Proof.
  intros (rest & Hrest)%prefix_chars.
  apply skipped_is_no_heading.
  apply (skipped_by (Bol ⨾ Word (PyStr.chars "http") Eps)).
  { do 5 right. left. }
  apply re_match_derives. exists rest, ∅. unfold PyStr.len. rewrite Hrest.
  eapply derives_seq; [by constructor|].
  apply derives_word. constructor.
Qed.

Lemma links_are_no_heading_witness :
  is_heading "  HTTPS://example.org/Report  " 30 16 10 = (false, None).
Proof.
  apply (links_are_no_heading "  HTTPS://example.org/Report  ").
  vm_compute. reflexivity.
Defined.

(** X5.  A text that, stripped and in lower case, starts with "page ",
    "figure " or "table " and then a digit is no heading, whatever the
    font. *)
Theorem captions_are_no_heading text fs fl avg word d rest :
  word ∈ ["page "; "figure "; "table "] →
  PyStr.chars (PyStr.lower (PyStr.strip text)) = PyStr.chars word ++ d :: rest →
  PyStr.isdecimal d = true →
  is_heading text fs fl avg = (false, None).
Proof.
  intros Hword Hchars Hd.
  apply skipped_is_no_heading.
  apply (skipped_by (Bol ⨾ Word (PyStr.chars word) (Plus re_digit))).
  { repeat (apply elem_of_cons in Hword as [->|Hword]);
      [do 1 right; left|do 2 right; left|do 3 right; left
      |by apply elem_of_nil in Hword]. }
  apply re_match_derives. exists rest, ∅. unfold PyStr.len. rewrite Hchars.
  eapply derives_seq; [by constructor|].
  apply derives_word. eapply derives_plus; [|apply derives_star_stop].
  constructor. unfold in_set. simpl. by rewrite Hd.
Qed.

Lemma captions_are_no_heading_witness :
  is_heading "Figure 12: Revenue By Region" 30 16 10 = (false, None).
Proof.
  apply (captions_are_no_heading "Figure 12: Revenue By Region" 30 16 10
           "figure " "1" (PyStr.chars "2: revenue by region")).
  - right. left.
  - vm_compute. reflexivity.
  - vm_compute. reflexivity.
Defined.

(** X6.  A text that, stripped, is wrapped in round or in square brackets
    and has no line break inside is no heading, whatever the font. *)
Theorem bracketed_is_no_heading text fs fl avg opening closing inner :
  (opening, closing) ∈ [("("%char, ")"%char); ("["%char, "]"%char)] →
  PyStr.chars (PyStr.strip text) = opening :: inner ++ [closing] →
  Forall (λ c, c ≠ "010"%char) inner →
  is_heading text fs fl avg = (false, None).
Proof.
  intros Hpair Hchars Hinner.
  apply skipped_is_no_heading.
  apply (skipped_by (Bol ⨾ Lit opening ⨾ Star Dot ⨾ Lit closing ⨾ Eol)).
  { repeat (apply elem_of_cons in Hpair as [[= -> ->]|Hpair]);
      [do 6 right; left|do 7 right; left|by apply elem_of_nil in Hpair]. }
  apply re_match_derives. exists [], ∅. unfold PyStr.len.
  rewrite chars_lower, Hchars. simpl map. rewrite map_app. simpl map.
  assert (PyStr.lower_char opening = opening ∧ PyStr.lower_char closing = closing)
    as [-> ->].
  { repeat (apply elem_of_cons in Hpair as [[= -> ->]|Hpair]);
      [done|done|by apply elem_of_nil in Hpair]. }
  eapply derives_seq; [by constructor|].
  eapply derives_seq; [constructor|].
  eapply derives_seq.
  { apply derives_star_dot. apply Forall_fmap.
    eapply Forall_impl; [exact Hinner|]. intros c. apply lower_char_newline. }
  eapply derives_seq; [constructor|]. constructor. by left.
Qed.

Lemma bracketed_is_no_heading_witness :
  is_heading "(See Appendix B)" 30 16 10 = (false, None).
Proof.
  apply (bracketed_is_no_heading "(See Appendix B)" 30 16 10
           "(" ")" (PyStr.chars "See Appendix B")).
  - left.
  - vm_compute. reflexivity.
  - vm_compute. repeat constructor; discriminate.
Defined.

Lemma digits_are_no_heading_witness :
  is_heading " 2024 " 30 16 10 = (false, None).
Proof.
  apply (digits_are_no_heading " 2024 ").
  vm_compute. repeat constructor.
Defined.

(* ================================================================== *)
(** ** Stripping and the length gate *)
(* ================================================================== *)

Lemma lstrip_chars_id l :
  (∀ c rest, l = c :: rest → PyStr.isspace c = false) →
  PyStr.lstrip_chars l = l.
Proof.
  destruct l as [|c rest]; [done|]. intros Hhead. simpl.
  by rewrite (Hhead c rest).
Qed.

Lemma strip_chars_head l c rest :
  PyStr.strip_chars l = c :: rest → PyStr.isspace c = false.
Proof.
  unfold PyStr.strip_chars. intros Hstrip.
  destruct (rstrip_chars_prefix (PyStr.lstrip_chars l)) as [k Hk].
  rewrite Hstrip in Hk. simpl in Hk.
  by apply lstrip_chars_head in Hk.
Qed.

Lemma strip_chars_last l c rest :
  rev (PyStr.strip_chars l) = c :: rest → PyStr.isspace c = false.
Proof.
  unfold PyStr.strip_chars, PyStr.rstrip_chars. rewrite rev_involutive.
  apply lstrip_chars_head.
Qed.

Lemma strip_chars_idemp l :
  PyStr.strip_chars (PyStr.strip_chars l) = PyStr.strip_chars l.
Proof.
  set (r := PyStr.strip_chars l).
  unfold PyStr.strip_chars at 1, PyStr.rstrip_chars.
  rewrite (lstrip_chars_id r) by (intros c rest; apply strip_chars_head).
  rewrite (lstrip_chars_id (rev r)) by (intros c rest; apply strip_chars_last).
  apply rev_involutive.
Qed.

(** Stripping twice is stripping once. *)
Lemma strip_idemp text : PyStr.strip (PyStr.strip text) = PyStr.strip text.
Proof.
  unfold PyStr.strip at 1 2. rewrite chars_of_chars.
  by rewrite strip_chars_idemp.
Qed.

Lemma lstrip_chars_blank l :
  Forall (λ c, PyStr.isspace c = true) l → PyStr.lstrip_chars l = [].
Proof. induction 1 as [|c l Hc _ IH]; simpl; [done|]. by rewrite Hc. Qed.

Lemma strip_blank text :
  Forall (λ c, PyStr.isspace c = true) (PyStr.chars text) →
  PyStr.strip text = "".
Proof.
  intros Hblank. unfold PyStr.strip, PyStr.strip_chars.
  by rewrite lstrip_chars_blank.
Qed.

(** X2.  White space around a text does not matter to the classifier:
    the stripped text gets the same answer. *)
Theorem is_heading_strip text fs fl avg :
  is_heading (PyStr.strip text) fs fl avg = is_heading text fs fl avg.
Proof. unfold is_heading. by rewrite strip_idemp. Qed.

(** X1.  A text of white space only, the empty text included, is no
    heading; nor is a text that, stripped, has fewer than 3 or more than 200
    characters; and a text that gets a level has between 3 and 200
    characters when stripped. *)
Theorem length_gate :
  (∀ text fs fl avg,
      Forall (λ c, PyStr.isspace c = true) (PyStr.chars text) →
      is_heading text fs fl avg = (false, None))
  ∧ (∀ text fs fl avg,
      (PyStr.len (PyStr.strip text) < 3 ∨ 200 < PyStr.len (PyStr.strip text))%nat →
      is_heading text fs fl avg = (false, None))
  ∧ (∀ text fs fl avg l,
      (is_heading text fs fl avg).2 = Some l →
      (3 ≤ PyStr.len (PyStr.strip text) ≤ 200)%nat).
Proof.
  split; [|split].
  - intros text fs fl avg Hblank. apply short_is_no_heading.
    rewrite strip_blank by done. unfold PyStr.len. simpl. lia.
  - intros text fs fl avg [Hlen|Hlen]; [by apply short_is_no_heading|].
    unfold is_heading. rewrite (proj2 (Nat.ltb_lt _ _) Hlen).
    by rewrite orb_true_r.
  - intros text fs fl avg l. unfold is_heading.
    destruct (_ || _) eqn:Hlen; [done|]. intros _.
    by apply length_gate_passed.
Qed.

(* ================================================================== *)
(** ** The style flags and the baseline *)
(* ================================================================== *)

Lemma is_bold_testbit fl : is_bold fl = Z.testbit fl 4.
Proof.
  unfold is_bold.
  assert (Z.land fl (2 ^ 4) = if Z.testbit fl 4 then 2 ^ 4 else 0) as ->.
  { apply Z.bits_inj'. intros n Hn.
    rewrite Z.land_spec, Z.pow2_bits_eqb by lia.
    destruct (Z.eqb_spec 4 n) as [<-|Hne].
    - rewrite andb_true_r. destruct (Z.testbit fl 4); [|by rewrite Z.bits_0].
      by rewrite Z.pow2_bits_true.
    - rewrite andb_false_r. destruct (Z.testbit fl 4); [|by rewrite Z.bits_0].
      by rewrite Z.pow2_bits_false. }
  by destruct (Z.testbit fl 4).
Qed.

(** X8.  Of the style flags only bit 4 (value 16) counts: flags that agree
    on it give the same answer. *)
Theorem only_the_bold_bit text fs fl fl' avg :
  Z.testbit fl 4 = Z.testbit fl' 4 →
  is_heading text fs fl avg = is_heading text fs fl' avg.
Proof.
  intros Hbit. unfold is_heading. by rewrite !is_bold_testbit, Hbit.
Qed.

Lemma only_the_bold_bit_witness :
  is_heading "some text" 10 (16 + 2 + 1) 10 = is_heading "some text" 10 (-16) 10.
Proof.
  apply (only_the_bold_bit "some text" 10 (16 + 2 + 1) (-16) 10).
  reflexivity.
Defined.

Lemma style_level_bold text ratio :
  style_level text true ratio = Some H1 ∨ style_level text true ratio = Some H2.
Proof.
  unfold style_level. simpl.
  destruct (1.5 <? ratio)%float, (1.2 <? ratio)%float; simpl; auto.
Qed.

(** X9.  A bold text that is through both gates is always a heading; when
    no structural pattern matches it, its level is H1 or H2. *)
Theorem bold_is_a_heading text fs fl avg :
  (3 ≤ PyStr.len (PyStr.strip text) ≤ 200)%nat →
  skipped (PyStr.strip text) = false →
  Z.testbit fl 4 = true →
  ∃ l, is_heading text fs fl avg = (true, Some l)
       ∧ (match_patterns heading_patterns (PyStr.strip text) = None →
          l = H1 ∨ l = H2).
Proof.
  intros Hlen Hskip Hbold. unfold is_heading.
  rewrite (proj2 (orb_false_iff _ _)), Hskip
    by (split; apply Nat.ltb_ge; lia).
  rewrite is_bold_testbit, Hbold.
  destruct (match_patterns _ _) as [l|]; simpl.
  - by exists l.
  - destruct (style_level_bold (PyStr.strip text) (font_size_ratio fs avg))
      as [-> | ->]; simpl; eexists; split; eauto.
Qed.

Lemma bold_is_a_heading_witness :
  ∃ l, is_heading "see the notes below" 9 16 12 = (true, Some l)
       ∧ (match_patterns heading_patterns (PyStr.strip "see the notes below") = None →
          l = H1 ∨ l = H2).
Proof.
  apply (bold_is_a_heading "see the notes below" 9 16 12).
  - vm_compute. split; by repeat constructor.
  - vm_compute. reflexivity.
  - reflexivity.
Defined.

(** X11.  With a baseline that is not positive (zero, negative or not a
    number) nothing is divided: the font size does not matter, and the style
    rules give no level to a text that is not bold. *)
Theorem no_baseline_no_size text fs fs' fl avg :
  (0 <? avg)%float = false →
  is_heading text fs fl avg = is_heading text fs' fl avg
  ∧ (Z.testbit fl 4 = false →
     style_level (PyStr.strip text) (is_bold fl) (font_size_ratio fs avg) = None).
Proof.
  intros Havg. split.
  - unfold is_heading, font_size_ratio. by rewrite Havg.
  - intros Hbold. unfold font_size_ratio.
    rewrite Havg, is_bold_testbit, Hbold. reflexivity.
Qed.

Lemma no_baseline_no_size_witness :
  is_heading "results of the survey" 40 0 0 = is_heading "results of the survey" 8 0 0
  ∧ (Z.testbit 0 4 = false →
     style_level (PyStr.strip "results of the survey") (is_bold 0)
                 (font_size_ratio 40 0) = None).
Proof.
  apply (no_baseline_no_size "results of the survey" 40 8 0 0). reflexivity.
Defined.

(* ================================================================== *)
(** ** The shape of the title *)
(* ================================================================== *)

Lemma page_lines_stripped text line :
  line ∈ page_lines text → PyStr.strip line = line ∧ line ≠ "".
Proof.
  unfold page_lines. intros (x & Hline & _)%list_elem_of_bind.
  unfold truthy in Hline.
  destruct (String.eqb_spec (PyStr.strip x) "") as [|Hne]; simpl in Hline.
  - by apply elem_of_nil in Hline.
  - apply list_elem_of_singleton in Hline as ->. by rewrite strip_idemp.
Qed.

Lemma scan_title_elem lines line :
  scan_title lines = Some line → line ∈ lines.
Proof.
  induction lines as [|x lines IH]; simpl; [done|].
  destruct (looks_like_title x).
  - intros [= ->]. left.
  - intros Hline. right. auto.
Qed.

Lemma first_page_title_stripped (pages : list Page) t :
  match pages with
  | page :: _ =>
      text ← get_text page;
      Ok (default "Untitled Document" (scan_title (take 5 (page_lines text))))
  | [] => Ok "Untitled Document"
  end = Ok t →
  t ≠ "" ∧ PyStr.strip t = t.
Proof.
  destruct pages as [|page rest]; [by intros [= <-]|].
  destruct (get_text page) as [text|e]; simpl; [|done].
  destruct (scan_title _) as [line|] eqn:Hscan; simpl; [|by intros [= <-]].
  intros [= <-]. apply scan_title_elem, elem_of_take in Hscan as (i & Hline & _).
  apply list_elem_of_lookup_2, page_lines_stripped in Hline as [??]. done.
Qed.

(** X12.  A title is never empty and has no white space around it: the
    one [extract_title] returns, and the one of every outline, the degraded
    one included. *)
Theorem title_is_stripped :
  (∀ doc t, extract_title doc = Ok t → t ≠ "" ∧ PyStr.strip t = t)
  ∧ (∀ fitz_open pdf_path,
       title (extract_outline fitz_open pdf_path) ≠ ""
       ∧ PyStr.strip (title (extract_outline fitz_open pdf_path))
         = title (extract_outline fitz_open pdf_path)).
Proof.
  assert (∀ doc t, extract_title doc = Ok t → t ≠ "" ∧ PyStr.strip t = t) as Htitle.
  { intros doc t. unfold extract_title, usable_metadata_title.
    destruct (metadata_title doc) as [t0|] eqn:Hmeta.
    - destruct (truthy t0 && truthy (PyStr.strip t0)) eqn:Htruthy.
      + intros [= <-]. apply andb_prop in Htruthy as [_ Hstrip].
        split; [|apply strip_idemp].
        intros Heq. rewrite Heq in Hstrip. done.
      + apply first_page_title_stripped.
    - apply first_page_title_stripped. }
  split; [done|].
  intros fitz_open pdf_path. unfold extract_outline, extract_outline_try.
  destruct (fitz_open pdf_path) as [doc|e]; simpl; [|done].
  destruct (extract_title doc) as [t|e] eqn:Ht; simpl; [|done].
  destruct (collect_texts 0 (pages doc)) as [all_texts|e]; simpl; [|done].
  by apply (Htitle doc).
Qed.

(* ================================================================== *)
(** ** The entries of the outline *)
(* ================================================================== *)

Lemma scan_headings_origin avg seen all_texts h :
  h ∈ scan_headings avg seen all_texts →
  ∃ ti, ti ∈ all_texts ∧ classify avg ti = Some (h_level h)
        ∧ text ti = h_text h ∧ page ti = h_page h.
Proof.
  revert seen. induction all_texts as [|ti rest IH]; intros seen.
  - by intros ?%elem_of_nil.
  - rewrite scan_headings_cons.
    assert (∀ seen', h ∈ scan_headings avg seen' rest →
              ∃ ti', ti' ∈ ti :: rest ∧ classify avg ti' = Some (h_level h)
                     ∧ text ti' = h_text h ∧ page ti' = h_page h) as Hrest.
    { intros seen' (ti' & Hin & Hrest)%IH. exists ti'. split; [by right|done]. }
    destruct (classify avg ti) as [l|] eqn:Hti; [|by apply Hrest].
    case_bool_decide; [|by apply Hrest].
    intros [->|Hin]%elem_of_cons; [|by eapply Hrest].
    exists ti. split; [left|done].
Qed.

Lemma assemble_Permutation avg all_texts :
  assemble avg all_texts ≡ₚ scan_headings avg ∅ all_texts.
Proof.
  rewrite assemble_one_pass_eq. apply sort_outline_Permutation.
Qed.

Lemma assemble_origin avg all_texts h :
  h ∈ assemble avg all_texts →
  ∃ ti, ti ∈ all_texts ∧ classify avg ti = Some (h_level h)
        ∧ text ti = h_text h ∧ page ti = h_page h.
Proof.
  rewrite assemble_Permutation. apply scan_headings_origin.
Qed.

(** X13.  Every entry of the assembled outline stems from a fragment that
    the classifier took: it has that fragment's text and page and the level
    the classifier gave it. *)
Theorem headings_come_from_fragments avg all_texts h :
  h ∈ assemble avg all_texts →
  ∃ ti, ti ∈ all_texts ∧ classify avg ti = Some (h_level h)
        ∧ text ti = h_text h ∧ page ti = h_page h.
Proof. apply assemble_origin. Qed.

Lemma headings_come_from_fragments_witness :
  ∃ ti, ti ∈ sample_texts
        ∧ classify (avg_font_size sample_texts) ti = Some H1
        ∧ text ti = "1. Overview" ∧ page ti = 1.
Proof.
  apply (headings_come_from_fragments (avg_font_size sample_texts) sample_texts
           {| h_level := H1; h_text := "1. Overview"; h_page := 1 |}).
  vm_compute. left.
Defined.

Lemma scan_headings_complete avg seen all_texts ti :
  ti ∈ all_texts → is_Some (classify avg ti) → text ti ∉ seen →
  ∃ h, h ∈ scan_headings avg seen all_texts ∧ h_text h = text ti.
Proof.
  intros Hin Hti. revert seen.
  induction all_texts as [|x rest IH]; intros seen Hseen;
    [by apply elem_of_nil in Hin|].
  rewrite scan_headings_cons.
  apply elem_of_cons in Hin as [<-|Hin].
  - destruct Hti as [l ->]. rewrite bool_decide_eq_true_2 by done.
    eexists. split; [left|done].
  - destruct (classify avg x) as [l|] eqn:Hx; [|by apply IH].
    case_bool_decide as Hxseen; [|by apply IH].
    destruct (decide (text x = text ti)) as [Heq|Hne].
    + eexists. split; [left|done].
    + destruct (IH Hin (seen ∪ {[text x]})) as (h & Hh & Htext).
      { apply not_elem_of_union. split; [done|].
        intros ?%elem_of_singleton. by apply Hne. }
      exists h. split; [by right|done].
Qed.

(** X14.  The texts of the assembled outline are pairwise distinct, also
    across levels, and they are exactly the texts of the fragments that the
    classifier took. *)
Theorem outline_texts avg all_texts :
  NoDup (h_text <$> assemble avg all_texts)
  ∧ ∀ t, t ∈ (h_text <$> assemble avg all_texts)
         ↔ ∃ ti, ti ∈ all_texts ∧ text ti = t ∧ is_Some (classify avg ti).
Proof.
  split.
  - rewrite assemble_one_pass_eq. apply sorted_scan_NoDup.
  - intros t. rewrite list_elem_of_fmap. split.
    + intros (h & -> & (ti & Hin & Hti & Htext & _)%assemble_origin).
      exists ti. by rewrite Hti.
    + intros (ti & Hin & <- & Hti).
      destruct (scan_headings_complete avg ∅ all_texts ti) as (h & Hh & Htext);
        [done..|].
      exists h. split; [done|]. by rewrite assemble_Permutation.
Qed.

Lemma page_texts_shape page_num blocks ti :
  ti ∈ page_texts page_num blocks →
  page ti = Z.of_nat page_num + 1
  ∧ text ti ≠ "" ∧ PyStr.strip (text ti) = text ti.
Proof.
  unfold page_texts.
  intros (block & Hti & _)%list_elem_of_bind.
  apply list_elem_of_bind in Hti as (line & Hti & _).
  apply list_elem_of_bind in Hti as (span & Hti & _).
  unfold truthy in Hti.
  destruct (String.eqb_spec (PyStr.strip (span_text span)) "") as [|Hne];
    simpl in Hti; [by apply elem_of_nil in Hti|].
  apply list_elem_of_singleton in Hti as ->. simpl.
  by rewrite strip_idemp.
Qed.

Lemma collect_texts_shape page_num (pages : list Page) all_texts ti :
  collect_texts page_num pages = Ok all_texts →
  ti ∈ all_texts →
  (Z.of_nat page_num + 1 ≤ page ti ≤ Z.of_nat page_num + Z.of_nat (length pages))%Z
  ∧ text ti ≠ "" ∧ PyStr.strip (text ti) = text ti.
Proof.
  revert page_num all_texts.
  induction pages as [|p rest IH]; intros page_num all_texts; simpl.
  - intros [= <-] Hin. by apply elem_of_nil in Hin.
  - destruct (get_text_dict p) as [blocks|e]; simpl; [|done].
    destruct (collect_texts (S page_num) rest) as [more|e] eqn:Hmore;
      simpl; [|done].
    intros [= <-] [Hin|Hin]%elem_of_app.
    + apply page_texts_shape in Hin as (-> & ? & ?). split; [lia|done].
    + apply (IH _ _ Hmore) in Hin as (? & ? & ?). split; [lia|done].
Qed.

Lemma classify_gates avg ti l :
  classify avg ti = Some l →
  (3 ≤ PyStr.len (PyStr.strip (text ti)) ≤ 200)%nat
  ∧ skipped (PyStr.strip (text ti)) = false.
Proof.
  unfold classify, is_heading.
  destruct (_ || _) eqn:Hlen; [done|].
  destruct (skipped _); [done|]. intros _.
  split; [by apply length_gate_passed|done].
Qed.

(** X15.  Every entry of the outline of a document has a page number
    between 1 and the number of pages, and a text that is stripped, has
    between 3 and 200 characters and matches no skip pattern. *)
Theorem outline_entries fitz_open pdf_path doc h :
  fitz_open pdf_path = Ok doc →
  h ∈ outline (extract_outline fitz_open pdf_path) →
  (1 ≤ h_page h ≤ Z.of_nat (length (pages doc)))%Z
  ∧ (3 ≤ PyStr.len (h_text h) ≤ 200)%nat
  ∧ PyStr.strip (h_text h) = h_text h
  ∧ skipped (h_text h) = false.
Proof.
  intros Hopen. unfold extract_outline, extract_outline_try. rewrite Hopen. simpl.
  destruct (extract_title doc) as [t|e]; simpl; [|by intros ?%elem_of_nil].
  destruct (collect_texts 0 (pages doc)) as [all_texts|e] eqn:Hcollect; simpl;
    [|by intros ?%elem_of_nil].
  intros (ti & Hin & Hti & <- & <-)%assemble_origin.
  apply (collect_texts_shape _ _ _ _ Hcollect) in Hin as (Hpage & _ & Hstrip).
  apply classify_gates in Hti as [Hlen Hskip]. rewrite Hstrip in Hlen, Hskip.
  split; [simpl in Hpage; lia|done].
Qed.

(** X16.  A document without pages gives an empty outline, titled by its
    metadata title when that is usable and "Untitled Document" otherwise. *)
Theorem no_pages fitz_open pdf_path doc :
  fitz_open pdf_path = Ok doc →
  pages doc = [] →
  extract_outline fitz_open pdf_path
  = {| title := default "Untitled Document" (usable_metadata_title doc);
       outline := [] |}.
Proof.
  intros Hopen Hpages. unfold extract_outline, extract_outline_try, extract_title.
  rewrite Hopen. simpl. rewrite Hpages.
  by destruct (usable_metadata_title doc).
Qed.

(* ================================================================== *)
(** ** The batch driver *)
(* ================================================================== *)

Lemma chars_app s1 s2 :
  PyStr.chars (s1 +:+ s2) = PyStr.chars s1 ++ PyStr.chars s2.
Proof.
  unfold PyStr.chars. induction s1 as [|c s1 IH]; simpl; [done|].
  by rewrite IH.
Qed.

Lemma of_chars_chars s : PyStr.of_chars (PyStr.chars s) = s.
Proof. apply string_of_list_ascii_of_string. Qed.

Lemma of_chars_app l1 l2 :
  PyStr.of_chars (l1 ++ l2) = PyStr.of_chars l1 +:+ PyStr.of_chars l2.
Proof.
  unfold PyStr.of_chars. induction l1 as [|c l1 IH]; simpl; [done|].
  by rewrite IH.
Qed.

Lemma replace_from_skip old new l rest :
  replace_from old new (length l) (l ++ rest) = replace_from old new 0 rest.
Proof. induction l as [|c l IH]; simpl; [by destruct rest|done]. Qed.

Lemma replace_from_none old new l :
  occurs old l = false → replace_from old new 0 l = l.
Proof.
  induction l as [|c l IH]; [done|]. simpl.
  intros [Hhere Hlater]%orb_false_elim. rewrite Hhere. f_equal. by apply IH.
Qed.

Lemma replace_from_whole c old new :
  replace_from (c :: old) new 0 (c :: old) = new.
Proof.
  cbn [replace_from]. rewrite bool_decide_eq_true_2 by done.
  replace (length (c :: old) - 1)%nat with (length old) by (simpl; lia).
  pose proof (replace_from_skip (c :: old) new old []) as Hskip.
  rewrite app_nil_r in Hskip. rewrite Hskip. simpl. by rewrite app_nil_r.
Qed.

(** No occurrence of ".pdf" begins before a final ".pdf" and runs into
    it. *)
Lemma pdf_does_not_straddle x stem :
  PyStr.chars ".pdf" `prefix_of` (x :: stem) ++ PyStr.chars ".pdf" →
  PyStr.chars ".pdf" `prefix_of` x :: stem.
Proof.
  intros [k Hk].
  destruct stem as [|a [|b [|c stem]]]; simpl in Hk; simplify_eq.
  by eexists.
Qed.

Lemma replace_from_pdf new stem :
  occurs (PyStr.chars ".pdf") stem = false →
  replace_from (PyStr.chars ".pdf") new 0 (stem ++ PyStr.chars ".pdf")
  = stem ++ new.
Proof.
  induction stem as [|x stem IH]; [intros _; apply replace_from_whole|].
  cbn [occurs]. intros [Hhere Hlater]%orb_false_elim.
  apply bool_decide_eq_false in Hhere.
  rewrite <- app_comm_cons. cbn [replace_from].
  rewrite bool_decide_eq_false_2.
  - simpl. f_equal. by apply IH.
  - rewrite app_comm_cons. intros Hocc. by apply Hhere, pdf_does_not_straddle.
Qed.

Lemma path_join_dir dir name :
  dir ∈ [input_dir; output_dir] →
  PyStr.startswith name "/" = false →
  path_join dir name = dir +:+ "/" +:+ name.
Proof.
  intros Hdir Hname. unfold path_join. rewrite Hname.
  repeat (apply elem_of_cons in Hdir as [->|Hdir]);
    [done|done|by apply elem_of_nil in Hdir].
Qed.





Lemma prefix_cons a p b s :
  String.prefix (String a p) (String b s)
  = if ascii_dec a b then String.prefix p s else false.
Proof. reflexivity. Qed.

Lemma startswith_slash_app stem ext :
  PyStr.startswith stem "/" = false → PyStr.startswith ext "/" = false →
  PyStr.startswith (stem +:+ ext) "/" = false.
Proof.
  unfold PyStr.startswith. destruct stem as [|c stem]; [done|].
  change (String c stem +:+ ext) with (String c (stem +:+ ext)).
  rewrite !prefix_cons.
  destruct (ascii_dec "/" c); [|done].
  intros Hstem _. exfalso. by destruct stem.
Qed.

Lemma replace_pdf_stem stem :
  occurs (PyStr.chars ".pdf") (PyStr.chars stem) = false →
  replace (stem +:+ ".pdf") ".pdf" ".json" = stem +:+ ".json".
Proof.
  intros Hstem. unfold replace.
  rewrite chars_app, replace_from_pdf by done.
  by rewrite of_chars_app, of_chars_chars.
Qed.

Lemma replace_no_pdf filename :
  occurs (PyStr.chars ".pdf") (PyStr.chars filename) = false →
  replace filename ".pdf" ".json" = filename.
Proof.
  intros Hname. unfold replace.
  by rewrite replace_from_none, of_chars_chars.
Qed.

Lemma endswith_lower_pdf stem :
  endswith (PyStr.lower (stem +:+ ".pdf")) ".pdf" = true.
Proof.
  unfold endswith. apply bool_decide_eq_true.
  rewrite chars_lower, chars_app, map_app.
  by apply suffix_app_r.
Qed.

Lemma process_dumps fitz_open filename :
  endswith (PyStr.lower filename) ".pdf" = true →
  PyStr.startswith filename "/" = false →
  PyStr.startswith (replace filename ".pdf" ".json") "/" = false →
  Dumped (output_dir +:+ "/" +:+ replace filename ".pdf" ".json")
         (extract_outline fitz_open (input_dir +:+ "/" +:+ filename))
  ∈ process fitz_open filename.
Proof.
  intros Hpdf Hname Hout. unfold process. rewrite Hpdf.
  rewrite !path_join_dir by (done || (left; done) || (right; left; done)).
  rewrite !elem_of_app. right. right. left.
Qed.

(** X19.  For a name "stem.pdf" whose stem has no ".pdf" inside, the file
    written is "stem.json" in the output directory. *)
Theorem pdf_becomes_json fitz_open stem :
  occurs (PyStr.chars ".pdf") (PyStr.chars stem) = false →
  PyStr.startswith stem "/" = false →
  Dumped (output_dir +:+ "/" +:+ stem +:+ ".json")
         (extract_outline fitz_open (input_dir +:+ "/" +:+ stem +:+ ".pdf"))
  ∈ process fitz_open (stem +:+ ".pdf").
Proof.
  intros Hstem Hslash.
  rewrite <- (replace_pdf_stem stem) by done.
  apply process_dumps.
  - apply endswith_lower_pdf.
  - by apply startswith_slash_app.
  - rewrite replace_pdf_stem by done. by apply startswith_slash_app.
Qed.

Lemma pdf_becomes_json_witness :
  Dumped "/app/output/annual.report.json"
         (extract_outline (λ _, Ok titled_doc) "/app/input/annual.report.pdf")
  ∈ process (λ _, Ok titled_doc) "annual.report.pdf".
Proof.
  apply (pdf_becomes_json (λ _, Ok titled_doc) "annual.report");
    vm_compute; reflexivity.
Defined.

(** X20.  A name that ends in ".pdf" only up to letter case (".PDF",
    ".Pdf") and has no ".pdf" inside is taken as a document, but the file
    written keeps that very name, extension included. *)
Theorem other_case_keeps_name fitz_open filename :
  endswith (PyStr.lower filename) ".pdf" = true →
  occurs (PyStr.chars ".pdf") (PyStr.chars filename) = false →
  PyStr.startswith filename "/" = false →
  Dumped (output_dir +:+ "/" +:+ filename)
         (extract_outline fitz_open (input_dir +:+ "/" +:+ filename))
  ∈ process fitz_open filename.
Proof.
  intros Hpdf Hname Hslash.
  rewrite <- (replace_no_pdf filename) at 1 by done.
  apply process_dumps; [done..|]. by rewrite replace_no_pdf.
Qed.

Lemma other_case_keeps_name_witness :
  Dumped "/app/output/REPORT.PDF"
         (extract_outline (λ _, Ok titled_doc) "/app/input/REPORT.PDF")
  ∈ process (λ _, Ok titled_doc) "REPORT.PDF".
Proof.
  apply (other_case_keeps_name (λ _, Ok titled_doc) "REPORT.PDF");
    vm_compute; reflexivity.
Defined.


(** X10.  A level H3 that comes from the fallback rules is never given to
    a bold text: the bold test of the third style rule cannot decide. *)
Theorem fallback_h3_is_not_bold text fs fl avg :
  is_heading text fs fl avg = (true, Some H3) →
  match_patterns heading_patterns (PyStr.strip text) = None →
  Z.testbit fl 4 = false.
Proof.
  intros Hh3 Hpat. destruct (Z.testbit fl 4) eqn:Hbold; [exfalso|done].
  revert Hh3. unfold is_heading.
  destruct (_ || _); [done|]. destruct (skipped _); [done|].
  rewrite Hpat, is_bold_testbit, Hbold.
  by destruct (style_level_bold (PyStr.strip text) (font_size_ratio fs avg))
    as [-> | ->].
Qed.

Lemma fallback_h3_is_not_bold_witness :
  is_heading "REPORT 2024" 11 0 10 = (true, Some H3) ∧ Z.testbit 0 4 = false.
Proof.
  split; [vm_compute; reflexivity|].
  apply (fallback_h3_is_not_bold "REPORT 2024" 11 0 10); vm_compute; reflexivity.
Defined.

Lemma outline_entries_witness :
  (1 ≤ 1 ≤ Z.of_nat (length (pages sample_doc)))%Z
  ∧ (3 ≤ PyStr.len "1. Overview" ≤ 200)%nat
  ∧ PyStr.strip "1. Overview" = "1. Overview"
  ∧ skipped "1. Overview" = false.
Proof.
  apply (outline_entries (λ _, Ok sample_doc) "sample.pdf" sample_doc
           {| h_level := H1; h_text := "1. Overview"; h_page := 1 |}).
  - reflexivity.
  - vm_compute. left.
Defined.

Lemma no_pages_witness :
  extract_outline (λ _, Ok titled_doc) "paper.pdf"
  = {| title := "My Paper"; outline := [] |}.
Proof.
  apply (no_pages (λ _, Ok titled_doc) "paper.pdf" titled_doc); reflexivity.
Defined.

(* ================================================================== *)
(** ** Texts that the patterns take or the noise gate stops *)
(* ================================================================== *)

Lemma derives_plus_class n items w s' g :
  w ≠ [] → Forall (λ c, in_set items c = true) w →
  derives n (Plus (OneOf items)) (w ++ s') g s' g.
Proof.
  destruct w as [|c w]; [done|]. intros _ [Hc Hw]%Forall_cons.
  eapply derives_plus; [by constructor|]. by apply derives_star_class.
Qed.

Lemma in_set_small c : in_set [CRange "a" "z"] c = is_small c.
Proof. unfold in_set. simpl. apply orb_false_r. Qed.

Lemma derives_capitalised n w s' g :
  capitalised w →
  derives n (re_upper ⨾ Plus re_lower) (w ++ s') g s' g.
Proof.
  intros (c & rest & -> & Hc & Hrest & Hsmall).
  eapply derives_seq.
  - constructor. by rewrite in_set_capital.
  - apply derives_plus_class; [done|].
    eapply Forall_impl; [exact Hsmall|]. intros x Hx. by rewrite in_set_small.
Qed.

Lemma derives_more_words n ws g :
  Forall capitalised ws →
  derives n (Star (Plus re_space ⨾ re_upper ⨾ Plus re_lower))
          (blank_before ws) g [] g.
Proof.
  induction 1 as [|w ws Hw _ IH]; [constructor|].
  unfold blank_before. rewrite fmap_cons. simpl concat.
  eapply derives_star_more; [| |exact IH].
  - eapply derives_seq.
    + apply (derives_plus_class n [CSpace] [" "%char]); [done|].
      by repeat constructor.
    + by apply derives_capitalised.
  - fold (blank_before ws). simpl. rewrite length_app. lia.
Qed.

(** A capitalised word followed by more, one blank between them, is taken
    by the title-case pattern. *)
Lemma title_case_pattern_words text w ws :
  PyStr.chars text = w ++ blank_before ws →
  capitalised w → Forall capitalised ws →
  is_Some (re_match title_case_pattern text).
Proof.
  intros Hchars Hw Hws. apply re_match_derives. eexists [], _.
  unfold PyStr.len. rewrite Hchars.
  eapply derives_seq; [by constructor|].
  eapply derives_seq; [|constructor; by left].
  apply derives_group.
  destruct Hw as (c & rest & -> & Hc & Hrest & Hsmall).
  eapply derives_seq; [constructor; by rewrite in_set_capital|].
  eapply derives_seq; [|by apply derives_more_words].
  apply derives_plus_class; [done|].
  eapply Forall_impl; [exact Hsmall|]. intros x Hx. by rewrite in_set_small.
Qed.

Lemma matched_not_numbered text p :
  p ∈ heading_patterns →
  is_Some (re_match p text) →
  starts_with_digit text = false →
  match_patterns heading_patterns text = Some H1.
Proof.
  intros Hp Hmatch Hdigit.
  destruct (match_patterns heading_patterns text) as [l|] eqn:Hl.
  - destruct (decide (l = H1)) as [->|Hne]; [done|].
    apply levels_below_h1 in Hl as [_ Hd]; [congruence|done].
  - apply (match_patterns_None _ _ p) in Hl; [|done].
    rewrite Hl in Hmatch. by destruct Hmatch.
Qed.

(** X22.  Capitalised words with one blank between them are an H1 heading,
    whatever the font size, the style flags and the average, once the text
    is through both gates: the title-case pattern takes them before the
    style rules are looked at. *)
Theorem capitalised_words_are_h1 text fs fl avg w ws :
  PyStr.chars (PyStr.strip text) = w ++ blank_before ws →
  capitalised w → Forall capitalised ws →
  (PyStr.len (PyStr.strip text) <? 3)%nat
    || (200 <? PyStr.len (PyStr.strip text))%nat = false →
  skipped (PyStr.strip text) = false →
  is_heading text fs fl avg = (true, Some H1).
Proof.
  intros Hchars Hw Hws Hlen Hskip.
  apply is_heading_structural; [done..|].
  apply (matched_not_numbered _ title_case_pattern).
  - do 4 right. left.
  - by eapply title_case_pattern_words.
  - unfold starts_with_digit. rewrite Hchars.
    destruct Hw as (c & rest & -> & Hc & _). simpl.
    by apply capital_not_digit.
Qed.

Lemma capitalised_words_are_h1_witness :
  is_heading "Results And Discussion" 9 0 12 = (true, Some H1).
Proof.
  apply (capitalised_words_are_h1 "Results And Discussion" 9 0 12
           (PyStr.chars "Results")
           [PyStr.chars "And"; PyStr.chars "Discussion"]).
  - vm_compute. reflexivity.
  - eexists _, _. split; [reflexivity|]. vm_compute. by repeat constructor.
  - repeat constructor;
      (eexists _, _; split; [reflexivity|]; vm_compute; by repeat constructor).
  - vm_compute. reflexivity.
  - vm_compute. reflexivity.
Defined.

Lemma derives_star_dot_all n w g :
  Forall (λ c, c ≠ "010"%char) w → derives n (Star Dot) w g [] g.
Proof.
  intros Hw. pose proof (derives_star_dot n w [] g Hw) as Hd.
  by rewrite app_nil_r in Hd.
Qed.

Lemma lettered_pattern_initial text c rest :
  PyStr.chars text = c :: "."%char :: rest →
  is_capital c = true → rest ≠ [] →
  Forall (λ x, x ≠ "010"%char) rest →
  is_Some (re_match lettered_pattern text).
Proof.
  intros Hchars Hc Hrest Hline. apply re_match_derives. eexists [], _.
  unfold PyStr.len. rewrite Hchars.
  eapply derives_seq; [by constructor|].
  eapply derives_seq.
  { apply derives_group. eapply derives_seq; [|constructor].
    constructor. by rewrite in_set_capital. }
  eapply derives_seq; [apply derives_star_stop|].
  eapply derives_seq; [|constructor; by left].
  apply derives_group.
  destruct rest as [|x rest]; [done|]. apply Forall_cons in Hline as [Hx Hline].
  eapply derives_plus; [by constructor|].
  by apply derives_star_dot_all.
Qed.

(** X23.  A text that begins with an ASCII capital and a full stop and goes
    on without a line break is an H1 heading, whatever the font size, the
    style flags and the average, once it is through both gates. *)
Theorem initial_and_stop_is_h1 text fs fl avg c rest :
  PyStr.chars (PyStr.strip text) = c :: "."%char :: rest →
  is_capital c = true → rest ≠ [] →
  Forall (λ x, x ≠ "010"%char) rest →
  (PyStr.len (PyStr.strip text) <? 3)%nat
    || (200 <? PyStr.len (PyStr.strip text))%nat = false →
  skipped (PyStr.strip text) = false →
  is_heading text fs fl avg = (true, Some H1).
Proof.
  intros Hchars Hc Hrest Hline Hlen Hskip.
  apply is_heading_structural; [done..|].
  apply (matched_not_numbered _ lettered_pattern).
  - do 2 right. left.
  - by eapply lettered_pattern_initial.
  - unfold starts_with_digit. rewrite Hchars. by apply capital_not_digit.
Qed.

Lemma initial_and_stop_is_h1_witness :
  is_heading "J. Smith and others have shown this before." 9 0 12
  = (true, Some H1).
Proof.
  apply (initial_and_stop_is_h1 "J. Smith and others have shown this before."
           9 0 12 "J" (PyStr.chars " Smith and others have shown this before.")).
  - vm_compute. reflexivity.
  - vm_compute. reflexivity.
  - done.
  - vm_compute. repeat constructor; discriminate.
  - vm_compute. reflexivity.
  - vm_compute. reflexivity.
Defined.

(** X21.  A text that, stripped and in lower case, starts like a mail
    address (word characters, "@", word characters, ".", a word character)
    is no heading, whatever the font. *)
Theorem mail_is_no_heading text fs fl avg user domain tld rest :
  PyStr.chars (PyStr.lower (PyStr.strip text))
  = user ++ "@"%char :: domain ++ "."%char :: tld ++ rest →
  user ≠ [] → domain ≠ [] → tld ≠ [] →
  Forall (λ c, PyStr.isword c = true) (user ++ domain ++ tld) →
  is_heading text fs fl avg = (false, None).
Proof.
  intros Hchars Huser Hdomain Htld Hword.
  apply Forall_app in Hword as [Hu Hword].
  apply Forall_app in Hword as [Hd Ht].
  assert (∀ w, Forall (λ c, PyStr.isword c = true) w →
               Forall (λ c, in_set [CWord] c = true) w) as Hset.
  { intros w Hw. eapply Forall_impl; [exact Hw|].
    intros c Hc. unfold in_set. simpl. by rewrite Hc. }
  apply skipped_is_no_heading.
  apply (skipped_by (Bol ⨾ Plus re_word ⨾ Lit "@" ⨾ Plus re_word ⨾ Lit "."
                     ⨾ Plus re_word)).
  { do 4 right. left. }
  apply re_match_derives. exists rest, ∅. unfold PyStr.len. rewrite Hchars.
  eapply derives_seq; [by constructor|].
  eapply derives_seq; [apply derives_plus_class; auto|].
  eapply derives_seq; [constructor|].
  eapply derives_seq; [apply derives_plus_class; auto|].
  eapply derives_seq; [constructor|].
  apply derives_plus_class; auto.
Qed.

Lemma mail_is_no_heading_witness :
  is_heading "Jane@Example.org for questions" 30 16 10 = (false, None).
Proof.
  apply (mail_is_no_heading "Jane@Example.org for questions" 30 16 10
           (PyStr.chars "jane") (PyStr.chars "example") (PyStr.chars "org")
           (PyStr.chars " for questions")); try done.
  vm_compute. repeat constructor.
Defined.

(* ================================================================== *)
(** ** Numbered headings *)
(* ================================================================== *)

Lemma run_Seq r1 r2 n s g k :
  run (r1 ⨾ r2) n s g k = run r1 n s g (λ s' g', run r2 n s' g' k).
Proof. reflexivity. Qed.

Lemma digit_in_set c : in_set [CDigit] c = PyStr.isdecimal c.
Proof. unfold in_set. simpl. apply orb_false_r. Qed.

Lemma digits_cons d :
  digits d = true →
  ∃ c d', d = c :: d' ∧ PyStr.isdecimal c = true
          ∧ Forall (λ x, PyStr.isdecimal x = true) d'.
Proof.
  unfold digits. intros [Hne Hall]%andb_prop.
  destruct d as [|c d']; [done|]. simpl in Hall.
  apply andb_prop in Hall as [Hc Hall].
  exists c, d'. repeat split; [done|].
  apply Forall_forall. intros x Hx.
  apply (proj1 (forallb_forall _ _) Hall). by apply list_elem_of_In.
Qed.

(** A greedy repetition of a class that meets the end of its run goes on
    with what follows at that place, when what follows succeeds there. *)
Lemma star_loop_class_run items fuel w s' g k m :
  Forall (λ c, in_set items c = true) w →
  (∀ c r, s' = c :: r → in_set items c = false) →
  (length w ≤ fuel)%nat →
  k s' g = Some m →
  star_loop (class_step items) fuel (w ++ s') g k = Some m.
Proof.
  intros Hw Hs'. revert fuel.
  induction Hw as [|c w Hc _ IH]; intros fuel Hfuel Hk; simpl.
  - destruct fuel as [|fuel]; simpl; [done|].
    destruct s' as [|c r]; simpl; [done|].
    by rewrite (Hs' c r).
  - destruct fuel as [|fuel]; simpl in Hfuel; [lia|].
    simpl. rewrite Hc.
    rewrite (proj2 (Nat.ltb_lt _ _)) by lia.
    by rewrite IH by (done || lia).
Qed.

(** One group of digits with its dot, read greedily. *)
Lemma run_digits_dot n d tail g k m :
  digits d = true →
  k tail g = Some m →
  run (Plus re_digit ⨾ Lit ".") n (d ++ "."%char :: tail) g k = Some m.
Proof.
  intros (c & d' & -> & Hc & Hd')%digits_cons Hk.
  unfold re_digit. simpl app. cbn [run].
  rewrite digit_in_set, Hc.
  apply (star_loop_class_run [CDigit]).
  - eapply Forall_impl; [exact Hd'|]. intros x Hx. by rewrite digit_in_set.
  - by intros ? ? [= <- _].
  - rewrite length_app. lia.
  - simpl. done.
Qed.

Lemma after_digits_run w x s' :
  Forall (λ c, PyStr.isdecimal c = true) w →
  PyStr.isdecimal x = false →
  after_digits (w ++ x :: s') = x :: s'.
Proof.
  intros Hw Hx. induction Hw as [|c w Hc _ IH]; simpl.
  - by rewrite Hx.
  - by rewrite Hc.
Qed.

(** Where the input does not begin with digits and a dot, a further group
    cannot be read. *)
Lemma run_digits_dot_none n s g k :
  starts_dotted s = false →
  run (Plus re_digit ⨾ Lit ".") n s g k = None.
Proof.
  intros Hs.
  destruct (run _ n s g k) as [m|] eqn:Hrun; [exfalso|done].
  apply run_sound in Hrun as (s' & g' & Hd & _).
  inversion Hd as [| | | | | |? ? ? ? s1 g1 ? ? Hplus Hlit| | | |]; subst.
  inversion Hlit; subst.
  inversion Hplus as [| | | | | | | | |? ? ? s2 g2 ? ? Hone Hstar|]; subst.
  inversion Hone as [| | | | |? c ? ? Hc| | | | |]; subst.
  apply (derives_within (λ x, PyStr.isdecimal x = true)) in Hstar
    as (w & -> & Hw); [|intros x; by rewrite digit_in_set].
  rewrite digit_in_set in Hc.
  unfold starts_dotted in Hs. rewrite Hc, after_digits_run in Hs; done.
Qed.

Lemma dotted_cons d ds rest :
  dotted (d :: ds) ++ rest = d ++ "."%char :: dotted ds ++ rest.
Proof. unfold dotted. simpl. by rewrite <- !app_assoc. Qed.

(** The greedy loop over the further groups takes all of them. *)
Lemma star_loop_dotted n ds rest fuel g k m :
  Forall (λ d, digits d = true) ds →
  starts_dotted rest = false →
  (length ds ≤ fuel)%nat →
  k rest g = Some m →
  star_loop (run (Plus re_digit ⨾ Lit ".") n) fuel (dotted ds ++ rest) g k
  = Some m.
Proof.
  intros Hds Hrest. revert fuel.
  induction Hds as [|d ds Hd _ IH]; intros fuel Hfuel Hk.
  - change (dotted [] ++ rest) with rest.
    destruct fuel as [|fuel]; cbn [star_loop]; [done|].
    by rewrite run_digits_dot_none.
  - destruct fuel as [|fuel]; simpl in Hfuel; [lia|].
    rewrite dotted_cons. cbn [star_loop].
    rewrite (run_digits_dot n d (dotted ds ++ rest) g _ m); [done|done|].
    rewrite (proj2 (Nat.ltb_lt _ _)).
    + apply IH; [lia|done].
    + rewrite !length_app. simpl. rewrite length_app. lia.
Qed.

Lemma dotted_length ds :
  Forall (λ d, digits d = true) ds → (length ds ≤ length (dotted ds))%nat.
Proof.
  induction 1 as [|d ds Hd _ IH]; [done|].
  rewrite <- (app_nil_r (dotted (d :: ds))), dotted_cons, app_nil_r.
  rewrite length_app. simpl. lia.
Qed.

(** The rest of the numbered pattern reads a rest that is not empty and
    has no line break. *)
Lemma derives_numbered_rest n rest g :
  rest ≠ [] →
  Forall (λ c, c ≠ "010"%char) rest →
  ∃ g', derives n (Star re_space ⨾ Group 2 (Plus Dot) ⨾ Eol) rest g [] g'.
Proof.
  intros Hne Hall. destruct rest as [|c rest]; [done|].
  apply Forall_cons in Hall as [Hc Hall].
  eexists.
  eapply derives_seq; [apply derives_star_stop|].
  eapply derives_seq; [|constructor; by left].
  constructor. eapply derives_plus; [by constructor|].
  by apply derives_star_dot_all.
Qed.

(** The numbered pattern on a text of the shape prefix and rest: the first
    group is the whole prefix. *)
Lemma numbered_pattern_dotted text ds rest :
  PyStr.chars text = dotted ds ++ rest →
  ds ≠ [] →
  Forall (λ d, digits d = true) ds →
  rest ≠ [] →
  Forall (λ c, c ≠ "010"%char) rest →
  starts_dotted rest = false →
  ∃ m, re_match numbered_pattern text = Some m ∧ group m 1 = dotted ds.
Proof.
  intros Hchars Hne Hds Hrest Hline Hno.
  destruct ds as [|d ds]; [done|]. apply Forall_cons in Hds as [Hd Hds].
  set (n := length (PyStr.chars text)).
  set (tail := Star re_space ⨾ Group 2 (Plus Dot) ⨾ Eol).
  destruct (derives_numbered_rest n rest (<[1%nat := dotted (d :: ds)]> ∅))
    as (g' & Hder); [done..|].
  destruct (run_complete _ _ _ _ _ _ Hder (λ _ g, Some g)) as [m Hm]; [done|].
  exists m. split.
  - unfold re_match, numbered_pattern. fold n. fold tail.
    rewrite run_Seq. cbn [run]. rewrite Nat.eqb_refl.
    rewrite Hchars, dotted_cons.
    apply (run_digits_dot n d (dotted ds ++ rest) ∅
             (λ s2 g2, run (Star (Plus re_digit ⨾ Lit ".")) n s2 g2
                (λ s' g', run tail n s'
                   (<[1%nat := take (length (d ++ "."%char :: dotted ds ++ rest)
                                    - length s')
                                   (d ++ "."%char :: dotted ds ++ rest)]> g')
                   (λ _ g, Some g)))); [done|].
    cbn [run].
    apply star_loop_dotted; [done|done| |].
    + rewrite length_app. pose proof (dotted_length ds Hds). lia.
    + cbn beta.
      rewrite <- dotted_cons, take_consumed. exact Hm.
  - apply run_sound in Hm as (s' & g'' & Hd' & [= <-]).
    apply (derives_lookup _ 1%nat) in Hd'; [|done].
    unfold group. rewrite Hd', lookup_insert_eq. done.
Qed.

Lemma first_literal_differs x r text c rest :
  PyStr.chars text = c :: rest →
  c ≠ x →
  re_match (Bol ⨾ Lit x ⨾ r) text = None.
Proof.
  intros Hchars Hc. unfold re_match. rewrite Hchars.
  cbn [run]. rewrite Nat.eqb_refl.
  by destruct (Ascii.eqb_spec c x).
Qed.

Lemma digit_differs c x :
  PyStr.isdecimal c = true → PyStr.isdecimal x = false → c ≠ x.
Proof. congruence. Qed.

Lemma dot_is_no_word_character : PyStr.isword "." = false.
Proof. reflexivity. Qed.

(** Digits and a dot are not the front of word characters and an at
    sign. *)
Lemma digits_dot_no_at (d w x y : list ascii) :
  Forall (λ c, PyStr.isdecimal c = true) d →
  Forall (λ c, PyStr.isword c = true) w →
  d ++ "."%char :: x ≠ w ++ "@"%char :: y.
Proof.
  intros Hd. revert w.
  induction Hd as [|c d Hc _ IH]; intros w Hw; simpl.
  - destruct w as [|a w]; simpl; [done|].
    intros [= <- _]. apply Forall_cons in Hw as [Ha _]. done.
  - destruct w as [|a w]; simpl.
    + intros [= -> _]. done.
    + intros [= _ Heq]. apply Forall_cons in Hw as [_ Hw]. by eapply IH.
Qed.

Lemma map_lower_digits d :
  Forall (λ c, PyStr.isdecimal c = true) d → map PyStr.lower_char d = d.
Proof.
  induction 1 as [|c d Hc _ IH]; [done|].
  simpl. by rewrite lower_char_digit, IH.
Qed.

Lemma matches_None p text : re_match p text = None → matches p text = false.
Proof.
  intros Hp. unfold matches. rewrite Hp.
  apply bool_decide_eq_false. by intros [? ?].
Qed.

Lemma no_match p text : ¬ is_Some (re_match p text) → re_match p text = None.
Proof. intros Hp. by destruct (re_match p text); [destruct Hp|]. Qed.

(** No skip pattern takes a text that begins with digits and a dot. *)
Lemma digits_dot_no_skip_pattern text d tail :
  PyStr.chars text = d ++ "."%char :: tail →
  digits d = true →
  Forall (λ p, re_match p (PyStr.lower text) = None) skip_patterns.
Proof.
  intros Hchars (c & d' & -> & Hc & Hd')%digits_cons.
  assert (Forall (λ x, PyStr.isdecimal x = true) (c :: d')) as Hd
    by by constructor.
  assert (PyStr.chars (PyStr.lower text)
          = c :: d' ++ "."%char :: map PyStr.lower_char tail) as Hlow.
  { rewrite chars_lower, Hchars, map_app, map_lower_digits by done.
    reflexivity. }
  assert (∀ x r, PyStr.isdecimal x = false →
                 re_match (Bol ⨾ Lit x ⨾ r) (PyStr.lower text) = None) as Hlit.
  { intros x r Hx. apply (first_literal_differs _ _ _ _ _ Hlow).
    by apply digit_differs. }
  unfold skip_patterns. repeat apply Forall_cons_2; [| | | | | | | |constructor].
  - apply no_match. intros (s' & g' & Hder)%re_match_derives.
    rewrite Hlow in Hder.
    inversion Hder as [| | | | | |? ? ? ? s0 g0 ? ? Hbol Hder'| | | |]; subst.
    inversion Hbol; subst.
    inversion Hder' as [| | | | | |? ? ? ? s1 g1 ? ? Hplus Heol| | | |]; subst.
    apply (derives_within (λ x, PyStr.isdecimal x = true)) in Hplus
      as (w & Hw & Hall); [|intros x; by rewrite digit_in_set].
    inversion Heol as [| |? ? Hend| | | | | | | |]; subst.
    assert ("."%char ∈ w ++ s') as Hin.
    { rewrite <- Hw. right. apply elem_of_app. right. left. }
    apply elem_of_app in Hin as [Hin|Hin].
    + apply (proj1 (Forall_forall _ _) Hall) in Hin. by vm_compute in Hin.
    + destruct Hend as [-> | ->].
      * by apply elem_of_nil in Hin.
      * by apply list_elem_of_singleton in Hin.
  - by apply (Hlit "p"%char (Word (PyStr.chars "age ") (Plus re_digit))).
  - by apply (Hlit "f"%char (Word (PyStr.chars "igure ") (Plus re_digit))).
  - by apply (Hlit "t"%char (Word (PyStr.chars "able ") (Plus re_digit))).
  - apply no_match. intros (s' & g' & Hder)%re_match_derives.
    rewrite Hlow in Hder.
    inversion Hder as [| | | | | |? ? ? ? s0 g0 ? ? Hbol Hder'| | | |]; subst.
    inversion Hbol; subst.
    inversion Hder' as [| | | | | |? ? ? ? s1 g1 ? ? Hplus Hat| | | |]; subst.
    apply (derives_within (λ x, PyStr.isword x = true)) in Hplus
      as (w & Hw & Hall).
    2: { intros x. unfold in_set. simpl. by rewrite orb_false_r. }
    inversion Hat as [| | | | | |? ? ? ? s2 g2 ? ? Hlit' _| | | |]; subst.
    inversion Hlit'; subst.
    by apply (digits_dot_no_at (c :: d') w
                (map PyStr.lower_char tail) s2) in Hw.
  - by apply (Hlit "h"%char (Word (PyStr.chars "ttp") Eps)).
  - by apply Hlit.
  - by apply Hlit.
Qed.

Lemma digits_dot_not_skipped text d tail :
  PyStr.chars text = d ++ "."%char :: tail →
  digits d = true →
  skipped text = false.
Proof.
  intros Hchars Hd. apply not_true_is_false.
  unfold skipped. intros (p & Hin & Hp)%existsb_exists.
  apply list_elem_of_In in Hin.
  pose proof (digits_dot_no_skip_pattern text d tail Hchars Hd) as Hall.
  apply (proj1 (Forall_forall _ _) Hall) in Hin.
  by rewrite (matches_None _ _ Hin) in Hp.
Qed.

Lemma digit_not_dot c : PyStr.isdecimal c = true → c ≠ "."%char.
Proof. intros Hc ->. by vm_compute in Hc. Qed.

Lemma count_dotted ds :
  Forall (λ d, digits d = true) ds →
  PyStr.count "." (dotted ds) = length ds.
Proof.
  induction 1 as [|d ds Hd _ IH]; [done|].
  rewrite <- (app_nil_r (dotted (d :: ds))), dotted_cons, app_nil_r.
  change (d ++ "."%char :: dotted ds) with (d ++ ["."%char] ++ dotted ds).
  rewrite !count_dot_app, IH.
  apply digits_cons in Hd as (c & d' & -> & Hc & Hd').
  rewrite count_dot_none; [done|].
  constructor; [by apply digit_not_dot|].
  eapply Forall_impl; [exact Hd'|]. apply digit_not_dot.
Qed.

Lemma level_of_dotted ds :
  ds ≠ [] →
  Forall (λ d, digits d = true) ds →
  level_of_group (dotted ds)
  = match length ds with 1 => H1 | 2 => H2 | _ => H3 end%nat.
Proof.
  intros Hne Hds. rewrite level_of_group_count, count_dotted by done.
  destruct ds as [|d [|d' [|d'' ds]]]; [done|done|done|]. simpl.
  unfold PyStr.contains. rewrite bool_decide_eq_true_2; [done|].
  rewrite <- (app_nil_r (dotted _)), dotted_cons.
  apply elem_of_app. right. left.
Qed.

(** The law of the numbered headings. *)
Lemma dotted_heading text fs fl avg ds rest :
  PyStr.chars (PyStr.strip text) = dotted ds ++ rest →
  ds ≠ [] →
  Forall (λ d, digits d = true) ds →
  rest ≠ [] →
  Forall (λ c, c ≠ "010"%char) rest →
  starts_dotted rest = false →
  (PyStr.len (PyStr.strip text) ≤ 200)%nat →
  is_heading text fs fl avg
  = (true, Some (match length ds with 1 => H1 | 2 => H2 | _ => H3 end%nat)).
Proof.
  intros Hchars Hne Hds Hrest Hline Hno Hlen.
  destruct (numbered_pattern_dotted _ ds rest Hchars) as (m & Hm & Hg);
    [done..|].
  apply is_heading_structural.
  - apply orb_false_intro; [|apply Nat.ltb_ge; lia].
    apply Nat.ltb_ge. unfold PyStr.len. rewrite Hchars.
    destruct ds as [|d ds]; [done|]. apply Forall_cons in Hds as [Hd _].
    apply digits_cons in Hd as (c & d' & -> & _).
    rewrite dotted_cons. destruct rest; [done|].
    simpl. rewrite !length_app. simpl. rewrite length_app. simpl. lia.
  - destruct ds as [|d ds]; [done|]. apply Forall_cons in Hds as [Hd _].
    rewrite dotted_cons in Hchars.
    by apply (digits_dot_not_skipped _ d (dotted ds ++ rest)).
  - unfold heading_patterns, match_patterns. rewrite Hm, Hg. f_equal.
    by apply level_of_dotted.
Qed.

(** C1, as the code has it.  A text that, stripped, is at most 200
    characters long and is made of a numeric prefix, one or more groups of
    digits with a dot after each group, and of a rest that is not empty, has
    no line break and does not itself begin with digits and a dot, is a
    heading whose level comes from the number of dots of that prefix: one
    dot H1, two dots H2, three or more dots H3.  Digits that no dot follows
    belong to the rest.  So, whatever the font size, the style flags and the
    average, "1. Intro" is H1, "1.2 Background" is H1 (the prefix is "1."),
    "1.2.3 Detail" is H2 (the prefix is "1.2."), "2.3.4.5 Deep" is H3 (the
    prefix is "2.3.4.") and "1.2.3.4.5 Deeper" is H3 as well. *)
Theorem numbered_heading_levels (fs : float) (fl : Z) (avg : float) :
  (∀ text ds rest,
      PyStr.chars (PyStr.strip text) = dotted ds ++ rest →
      ds ≠ [] →
      Forall (λ d, digits d = true) ds →
      rest ≠ [] →
      Forall (λ c, c ≠ "010"%char) rest →
      starts_dotted rest = false →
      (PyStr.len (PyStr.strip text) ≤ 200)%nat →
      is_heading text fs fl avg
      = (true, Some (match length ds with
                     | 1 => H1
                     | 2 => H2
                     | _ => H3
                     end%nat)))
  ∧ is_heading "1. Intro" fs fl avg = (true, Some H1)
  ∧ is_heading "1.2 Background" fs fl avg = (true, Some H1)
  ∧ is_heading "1.2.3 Detail" fs fl avg = (true, Some H2)
  ∧ is_heading "2.3.4.5 Deep" fs fl avg = (true, Some H3)
  ∧ is_heading "1.2.3.4.5 Deeper" fs fl avg = (true, Some H3).
Proof.
  split; [|repeat split; structural].
  intros text ds rest. apply dotted_heading.
Qed.

(** "10.2.7 Results" has the prefix "10.2." of two dots and the rest
    "7 Results". *)
Lemma numbered_heading_levels_witness :
  is_heading "  10.2.7 Results " 9 16 12 = (true, Some H2).
Proof.
  apply (proj1 (numbered_heading_levels 9 16 12) "  10.2.7 Results "
           [PyStr.chars "10"; PyStr.chars "2"] (PyStr.chars "7 Results")).
  - vm_compute. reflexivity.
  - discriminate.
  - repeat constructor.
  - discriminate.
  - repeat constructor; discriminate.
  - vm_compute. reflexivity.
  - vm_compute. lia.
Defined.
